(** * Shopify order companion: a shallow embedding of [main.py] and [config.py]

    The script receives one Shopify "order created" JSON document, flattens
    it ([extract_fields]), calls five integrations (Harvest, Trello, Zoho,
    SMTP, Mailchimp) and assembles one result dictionary ([process_order]).

    Modelling choices.
    - JSON values are the Python objects [json.loads] builds: [pyval].
      A Python [dict] is an association list in which the first binding of a
      key is the binding of the dictionary.
    - Python [str] is modelled by [string]; only the ASCII behaviour of
      [float()], [int()], [repr()] and [str.lower()] is modelled. A string
      holds no lone surrogate, so encoding it as UTF-8 (in [hashlib.md5] and
      in [MIMEText]) cannot fail.
    - A Python [float] is an IEEE 754 binary64 number, [spec_float] with
      precision 53 and maximal exponent 1024.
    - Exceptions are values of an error monad; outbound calls are logged in
      an explicit [world] and answered by an [environment]. *)

From Stdlib Require Import ZArith NArith List String Ascii Bool Lia.
From Stdlib Require Import Floats.SpecFloat DecimalString.
Import ListNotations.

Local Open Scope string_scope.
Local Open Scope Z_scope.

(** ** Python values *)

Definition float64 := spec_float.

#[warnings="-register-all"]
Inductive pyval :=
| PNone
| PBool (b : bool)
| PInt (z : Z)
| PFloat (f : float64)
| PStr (s : string)
| PList (l : list pyval)
| PDict (d : list (string * pyval)).

Definition pydict := list (string * pyval).

(** [bool(v)]: the truth value Python's [or], [and], [not] and [if] use. *)
Definition truthy (v : pyval) : bool :=
  match v with
  | PNone => false
  | PBool b => b
  | PInt z => negb (z =? 0)
  | PFloat (S754_zero _) => false
  | PFloat _ => true
  | PStr s => negb (s =? "")%string
  | PList l => match l with [] => false | _ => true end
  | PDict d => match d with [] => false | _ => true end
  end.

(** [a or b] *)
Definition py_or (a b : pyval) : pyval := if truthy a then a else b.

Fixpoint lookup {V : Type} (k : string) (d : list (string * V)) : option V :=
  match d with
  | [] => None
  | (k', v) :: rest => if (k' =? k)%string then Some v else lookup k rest
  end.

(** [d.get(k, default)] on a dictionary. *)
Definition dict_get (d : pydict) (k : string) (default : pyval) : pyval :=
  match lookup k d with
  | Some v => v
  | None => default
  end.

(** [d[k] = v]: replaces the binding of [k] in place or appends a new one. *)
Fixpoint dict_set {V : Type} (d : list (string * V)) (k : string) (v : V)
  : list (string * V) :=
  match d with
  | [] => [(k, v)]
  | (k', v') :: rest =>
      if (k' =? k)%string then (k, v) :: rest else (k', v') :: dict_set rest k v
  end.

Definition type_name (v : pyval) : string :=
  match v with
  | PNone => "NoneType"
  | PBool _ => "bool"
  | PInt _ => "int"
  | PFloat _ => "float"
  | PStr _ => "str"
  | PList _ => "list"
  | PDict _ => "dict"
  end.

(** ** Exceptions *)

Inductive exc_class :=
| AttributeError
| TypeError
| ValueError
| OverflowError
| RequestException   (* raised by requests.post, raise_for_status, resp.json *)
| SMTPException.     (* raised inside the smtplib session *)

(** An exception object: its class and [str(e)]. The texts of the
    interpreter's own messages are those of CPython 3.12. *)
Record exn := Exc { exc_type : exc_class; exc_str : string }.

Inductive result (A : Type) :=
| Ok (a : A)
| Raise (e : exn).
Arguments Ok {A} a.
Arguments Raise {A} e.

Definition rbind {A B} (r : result A) (k : A -> result B) : result B :=
  match r with
  | Ok a => k a
  | Raise e => Raise e
  end.

Declare Scope result_scope.
Delimit Scope result_scope with result.
Notation "x <- r ;; k" := (rbind r (fun x => k))
  (at level 61, r at next level, right associativity) : result_scope.

(** [v.get(k)]: only a [dict] has the method. *)
Definition py_get (v : pyval) (k : string) : result pyval :=
  match v with
  | PDict d => Ok (dict_get d k PNone)
  | _ => Raise (Exc AttributeError
                  ("'" ++ type_name v ++ "' object has no attribute 'get'"))
  end.

(** ** Characters *)

Definition code (c : ascii) : N := N_of_ascii c.

Definition is_digit (c : ascii) : bool := ((48 <=? code c) && (code c <=? 57))%N.

(** Whitespace of [str.isspace] below 128. *)
Definition is_space (c : ascii) : bool :=
  (((9 <=? code c) && (code c <=? 13)) || ((28 <=? code c) && (code c <=? 32)))%N.

Definition to_lower (c : ascii) : ascii :=
  if ((65 <=? code c) && (code c <=? 90))%N then ascii_of_N (code c + 32) else c.

(** [s.lower()] *)
Definition lower (s : string) : string :=
  string_of_list_ascii (map to_lower (list_ascii_of_string s)).

Definition digit_val (c : ascii) : Z := Z.of_N (code c) - 48.

Fixpoint span_digits (l : list ascii) : list ascii * list ascii :=
  match l with
  | c :: t =>
      if is_digit c then let (ds, r) := span_digits t in (c :: ds, r) else ([], l)
  | [] => ([], [])
  end.

Definition Z_of_digits (ds : list ascii) : Z :=
  fold_left (fun acc c => 10 * acc + digit_val c) ds 0.

Fixpoint drop_spaces (l : list ascii) : list ascii :=
  match l with
  | c :: t => if is_space c then drop_spaces t else l
  | [] => []
  end.

Definition strip (l : list ascii) : list ascii :=
  rev (drop_spaces (rev (drop_spaces l))).

(** An underscore is accepted only between two digits, and is dropped. *)
Fixpoint remove_underscores (prev : option ascii) (l : list ascii)
  : option (list ascii) :=
  match l with
  | [] => match prev with
          | Some "_"%char => None
          | _ => Some []
          end
  | c :: t =>
      if (c =? "_")%char then
        match prev with
        | Some p => if is_digit p then remove_underscores (Some c) t else None
        | None => None
        end
      else
        match prev with
        | Some "_"%char =>
            if is_digit c
            then option_map (cons c) (remove_underscores (Some c) t)
            else None
        | _ => option_map (cons c) (remove_underscores (Some c) t)
        end
  end.

Definition parse_sign (l : list ascii) : bool * list ascii :=
  match l with
  | "-"%char :: t => (true, t)
  | "+"%char :: t => (false, t)
  | _ => (false, l)
  end.

(** ** binary64 *)

Definition prec : Z := 53.
Definition emax : Z := 1024.

(** [float(n)] for an integer: round to nearest, ties to even. *)
Definition float_of_Z (z : Z) : float64 := binary_normalize prec emax z 0 false.

(** The binary64 number nearest to [m * 10^e10], ties to even. For a
    negative exponent the quotient is computed with more than 55 bits and a
    sticky bit, which [binary_round] then rounds once. *)
Definition float_of_decimal (neg : bool) (m : Z) (e10 : Z) : float64 :=
  if m <=? 0 then S754_zero neg
  else if 0 <=? e10 then
    binary_round prec emax neg (Z.to_pos (m * 10 ^ e10)) 0
  else
    let d := 10 ^ (- e10) in
    let k := Z.max 0 (Z.log2 d + 57 - Z.log2 m) in
    let (q, r) := Z.div_eucl (m * 2 ^ k) d in
    let sticky := if r =? 0 then 0 else 1 in
    binary_round prec emax neg (Z.to_pos (2 * q + sticky)) (- k - 1).

Definition parse_inf_or_nan (neg : bool) (l : list ascii) : option float64 :=
  let s := string_of_list_ascii (map to_lower l) in
  if ((s =? "inf") || (s =? "infinity"))%string then Some (S754_infinity neg)
  else if (s =? "nan")%string then Some S754_nan
  else None.

Definition parse_decimal (neg : bool) (l : list ascii) : option float64 :=
  let (ip, r1) := span_digits l in
  let (fp, r2) := match r1 with
                  | "."%char :: t => span_digits t
                  | _ => ([], r1)
                  end in
  let ds := (ip ++ fp)%list in
  match ds with
  | [] => None
  | _ :: _ =>
      let frac := Z.of_nat (List.length fp) in
      match r2 with
      | [] => Some (float_of_decimal neg (Z_of_digits ds) (- frac))
      | c :: t =>
          if ((c =? "e") || (c =? "E"))%char then
            let (eneg, t') := parse_sign t in
            let (ep, r3) := span_digits t' in
            match ep, r3 with
            | _ :: _, [] =>
                let e := Z_of_digits ep in
                Some (float_of_decimal neg (Z_of_digits ds)
                        ((if eneg then - e else e) - frac))
            | _, _ => None
            end
          else None
      end
  end.

(** [float(s)] for a string; [None] is [ValueError]. *)
Definition float_of_string (s : string) : option float64 :=
  match remove_underscores None (list_ascii_of_string s) with
  | None => None
  | Some l =>
      let (neg, body) := parse_sign (strip l) in
      match parse_inf_or_nan neg body with
      | Some f => Some f
      | None => parse_decimal neg body
      end
  end.

(** [int(s)] for a string, base 10; [None] is [ValueError]. *)
Definition int_of_string (s : string) : option Z :=
  match remove_underscores None (list_ascii_of_string s) with
  | None => None
  | Some l =>
      let (neg, body) := parse_sign (strip l) in
      match span_digits body with
      | ((_ :: _) as ds, []) =>
          Some (if neg then - Z_of_digits ds else Z_of_digits ds)
      | _ => None
      end
  end.

(** [repr(s)] of a string. *)
Definition squote : ascii := "'"%char.
Definition dquote : ascii := ascii_of_N 34.

Definition hex_digit (n : N) : ascii :=
  ascii_of_N (if (n <? 10)%N then 48 + n else 87 + n).

Definition repr_char (q c : ascii) : string :=
  if (c =? "\")%char then "\\"
  else if (c =? q)%char then String "\" (String q "")
  else if (code c =? 10)%N then "\n"
  else if (code c =? 13)%N then "\r"
  else if (code c =? 9)%N then "\t"
  else if ((code c <? 32) || (code c =? 127))%N then
    "\x" ++ String (hex_digit (code c / 16)) (String (hex_digit (code c mod 16)) "")
  else String c "".

Definition repr_str (s : string) : string :=
  let l := list_ascii_of_string s in
  let q := if existsb (Ascii.eqb squote) l && negb (existsb (Ascii.eqb dquote) l)
           then dquote else squote in
  String q (String.concat "" (map (repr_char q) l) ++ String q "").

(** [float(v)] *)
Definition py_float (v : pyval) : result float64 :=
  match v with
  | PBool b => Ok (float_of_Z (if b then 1 else 0))
  | PInt z =>
      match float_of_Z z with
      | S754_infinity _ => Raise (Exc OverflowError "int too large to convert to float")
      | f => Ok f
      end
  | PFloat f => Ok f
  | PStr s =>
      match float_of_string s with
      | Some f => Ok f
      | None => Raise (Exc ValueError ("could not convert string to float: " ++ repr_str s))
      end
  | _ => Raise (Exc TypeError
                  ("float() argument must be a string or a real number, not '"
                   ++ type_name v ++ "'"))
  end.

(** ** Field extraction ([extract_fields]) *)

(** The flat mapping built by [extract_fields]; its keys are fixed. *)
Record NormalizedFields := {
  customer_phone : pyval;
  customer_zipcode : pyval;
  order_value : float64;
  customer_firstname : pyval;
  customer_lastname : pyval;
  customer_email : pyval;
  customer_country : pyval;
  customer_street : pyval;
  customer_city : pyval;
  customer_province : pyval;
  order_number : pyval;
  order_status_url : pyval;
  currency : pyval;
  processed_at : pyval
}.

Local Open Scope result_scope.

(** The entries of the dictionary literal are evaluated in the order they
    are written, so the first failing one decides the exception. *)
Definition extract_fields (order_json : pydict) : result NormalizedFields :=
  let customer := py_or (dict_get order_json "customer" (PDict [])) (PDict []) in
  let shipping := py_or (dict_get order_json "shipping_address" (PDict [])) (PDict []) in
  has_address <- py_get customer "default_address" ;;
  phone <- (if truthy has_address
            then address <- py_get customer "default_address" ;;
                 py_get (py_or address (PDict [])) "phone"
            else Ok PNone) ;;
  zip <- py_get shipping "zip" ;;
  value <- py_float (py_or (dict_get order_json "current_total_price" (PInt 0)) (PInt 0)) ;;
  first_name <- py_get customer "first_name" ;;
  last_name <- py_get customer "last_name" ;;
  email <- py_get customer "email" ;;
  country <- py_get shipping "country" ;;
  address1 <- py_get shipping "address1" ;;
  city <- py_get shipping "city" ;;
  province <- py_get shipping "province" ;;
  Ok {| customer_phone := phone;
        customer_zipcode := zip;
        order_value := value;
        customer_firstname := py_or first_name (PStr "");
        customer_lastname := py_or last_name (PStr "");
        customer_email := py_or email (PStr "");
        customer_country := py_or country (PStr "");
        customer_street := py_or address1 (PStr "");
        customer_city := py_or city (PStr "");
        customer_province := py_or province (PStr "");
        order_number := py_or (dict_get order_json "order_number" PNone)
                              (dict_get order_json "id" PNone);
        order_status_url := dict_get order_json "order_status_url" PNone;
        currency := dict_get order_json "currency" PNone;
        processed_at := dict_get order_json "processed_at" PNone |}.

(** ** Conversions used by the adapters *)

Definition str_of_Z (z : Z) : string := NilZero.string_of_int (Z.to_int z).

(** [int(v)] *)
Definition py_int (v : pyval) : result Z :=
  match v with
  | PBool b => Ok (if b then 1 else 0)
  | PInt z => Ok z
  | PFloat S754_nan => Raise (Exc ValueError "cannot convert float NaN to integer")
  | PFloat (S754_infinity _) =>
      Raise (Exc OverflowError "cannot convert float infinity to integer")
  | PFloat (S754_zero _) => Ok 0
  | PFloat (S754_finite s m e) =>
      let a := if 0 <=? e then Zpos m * 2 ^ e else Zpos m / 2 ^ (- e) in
      Ok (if s then - a else a)
  | PStr s =>
      match int_of_string s with
      | Some z => Ok z
      | None => Raise (Exc ValueError
                         ("invalid literal for int() with base 10: " ++ repr_str s))
      end
  | _ => Raise (Exc TypeError
                  ("int() argument must be a string, a bytes-like object or a real number, not '"
                   ++ type_name v ++ "'"))
  end.

(** [v.lower()]: only a [str] has the method. *)
Definition py_lower (v : pyval) : result string :=
  match v with
  | PStr s => Ok (lower s)
  | _ => Raise (Exc AttributeError
                  ("'" ++ type_name v ++ "' object has no attribute 'lower'"))
  end.

Definition nl : string := String (ascii_of_N 10) "".

Section Repr.
(** [repr] of a float (the shortest string that reads back), left to the
    interpreter. *)
Variable float_repr : float64 -> string.

Fixpoint py_repr (v : pyval) : string :=
  match v with
  | PNone => "None"
  | PBool b => if b then "True" else "False"
  | PInt z => str_of_Z z
  | PFloat f => float_repr f
  | PStr s => repr_str s
  | PList l => "[" ++ String.concat ", " (map py_repr l) ++ "]"
  | PDict d =>
      "{" ++ String.concat ", "
               (map (fun kv => repr_str (fst kv) ++ ": " ++ py_repr (snd kv)) d)
      ++ "}"
  end.

(** [str(v)], also what an f-string puts for [{v}]. *)
Definition py_str (v : pyval) : string :=
  match v with
  | PStr s => s
  | _ => py_repr v
  end.
End Repr.

(** ** Outbound calls and the world *)

Record http_request := {
  url : string;
  params : list (string * pyval);
  json : option pyval;
  headers : list (string * string);
  auth : option (pyval * pyval);
  timeout : Z
}.

Record response := {
  status_code : Z;
  reason : string;
  resp_url : string;
  (** [resp.json()]: the decoded body, or the text of the decoding error *)
  decoded : string + pyval
}.

Inductive post_outcome :=
| PostRaises (description : string)   (* connection error, timeout, ... *)
| PostReturns (r : response).

Record mime_text := {
  payload : string;
  Subject : string;
  From : pyval;
  To : pyval
}.

Record smtp_session := {
  smtp_host : pyval;
  smtp_port_number : Z;
  smtp_timeout : Z;
  login : pyval * pyval;
  sendmail_from : pyval;
  sendmail_to : list pyval;
  sendmail_msg : mime_text
}.

Inductive call :=
| HttpPost (r : http_request)
| SmtpSend (s : smtp_session).

(** What one run has done so far: the outbound calls attempted, latest
    first, and the number of clock readings. *)
Record world := {
  outbound : list call;
  clock : nat
}.

Definition M (A : Type) : Type := world -> result A * world.

Definition ret {A} (a : A) : M A := fun w => (Ok a, w).

Definition bind {A B} (m : M A) (k : A -> M B) : M B :=
  fun w => match m w with
           | (Ok a, w') => k a w'
           | (Raise e, w') => (Raise e, w')
           end.

Definition lift {A} (r : result A) : M A := fun w => (r, w).

(** [try: body except Exception as e: handler(e)] *)
Definition try_except {A} (body : M A) (handler : exn -> M A) : M A :=
  fun w => match body w with
           | (Ok a, w') => (Ok a, w')
           | (Raise e, w') => handler e w'
           end.

Declare Scope M_scope.
Delimit Scope M_scope with M.
Notation "x <- m ;; k" := (bind m (fun x => k))
  (at level 61, m at next level, right associativity) : M_scope.

(** [resp.raise_for_status()]: an [HTTPError] for 4xx and 5xx only. *)
Definition raise_for_status (r : response) : result unit :=
  if (400 <=? status_code r) && (status_code r <? 500) then
    Raise (Exc RequestException
             (str_of_Z (status_code r) ++ " Client Error: " ++ reason r
              ++ " for url: " ++ resp_url r))
  else if (500 <=? status_code r) && (status_code r <? 600) then
    Raise (Exc RequestException
             (str_of_Z (status_code r) ++ " Server Error: " ++ reason r
              ++ " for url: " ++ resp_url r))
  else Ok tt.

(** [resp.json()] *)
Definition resp_json (r : response) : result pyval :=
  match decoded r with
  | inr v => Ok v
  | inl msg => Raise (Exc RequestException msg)
  end.

(** An entry of the dictionary [process_order] returns. *)
Inductive entry :=
| Timestamp (s : string)
| Fields (f : NormalizedFields)
| Adapter (r : pydict).

Definition result_dict := list (string * entry).

(** The globals [main.py] defines when it is imported. *)
Record main_module := {
  COUPON_THRESHOLD : float64;
  COUPON_CODE : pyval;
  MAILCHIMP_HIGH_ORDER_TAG : pyval
}.

Local Open Scope M_scope.

(** What the program is run in: the process environment once
    [load_dotenv] has run, the interpreter's [repr] of a float and
    [hashlib.md5(...).hexdigest()], the network (how a POST and an SMTP
    session end, given the calls attempted before; [Some d] is an exception
    whose [str] is [d]), and [datetime.utcnow().isoformat()] at the n-th
    reading of the clock. *)
Record environment := {
  environ : string -> option string;
  float_repr : float64 -> string;
  md5_hexdigest : string -> string;
  requests_post : list call -> http_request -> post_outcome;
  smtp_deliver : list call -> smtp_session -> option string;
  utcnow_isoformat : nat -> string
}.

Section Program.

Variable E : environment.

Abbreviation str := (py_str (float_repr E)).

(** *** config.py *)

Definition getenv (k : string) (default : pyval) : pyval :=
  match environ E k with
  | Some v => PStr v
  | None => default
  end.

Definition HARVEST_TOKEN := getenv "HARVEST_TOKEN" PNone.
Definition HARVEST_ACCOUNT_ID := getenv "HARVEST_ACCOUNT_ID" PNone.
Definition TRELLO_KEY := getenv "TRELLO_KEY" PNone.
Definition TRELLO_TOKEN := getenv "TRELLO_TOKEN" PNone.
Definition TRELLO_LIST_ID := getenv "TRELLO_LIST_ID" PNone.
Definition ZOHO_ACCESS_TOKEN := getenv "ZOHO_ACCESS_TOKEN" PNone.
Definition MAILCHIMP_API_KEY := getenv "MAILCHIMP_API_KEY" PNone.
Definition MAILCHIMP_LIST_ID := getenv "MAILCHIMP_LIST_ID" PNone.
Definition MAILCHIMP_SERVER_PREFIX := getenv "MAILCHIMP_SERVER_PREFIX" PNone.
Definition GMAIL_SMTP_SERVER := getenv "GMAIL_SMTP_SERVER" (PStr "smtp.gmail.com").
Definition GMAIL_SMTP_PORT := getenv "GMAIL_SMTP_PORT" (PStr "587").
Definition GMAIL_SMTP_USER := getenv "GMAIL_SMTP_USER" PNone.
Definition GMAIL_SMTP_PASS := getenv "GMAIL_SMTP_PASS" PNone.

(** Importing [main] imports [config] first; both convert the same
    variable with [float], so both fail on the same environments. *)
Definition import_main : result main_module :=
  (_ <- py_float (getenv "COUPON_THRESHOLD" (PStr "50")) ;;
   threshold <- py_float (getenv "COUPON_THRESHOLD" (PStr "50")) ;;
   Ok {| COUPON_THRESHOLD := threshold;
         COUPON_CODE := getenv "COUPON_CODE" (PStr "COUPON15");
         MAILCHIMP_HIGH_ORDER_TAG := getenv "MAILCHIMP_HIGH_ORDER_TAG" (PStr "high-order") |}
  )%result.

(** *** The calls that leave the process *)

Definition post (req : http_request) : M response :=
  fun w =>
    let w' := {| outbound := HttpPost req :: outbound w; clock := clock w |} in
    match requests_post E (outbound w) req with
    | PostRaises d => (Raise (Exc RequestException d), w')
    | PostReturns r => (Ok r, w')
    end.

(** The [with smtplib.SMTP(...)] block: connect, [starttls], [login],
    [sendmail]. *)
Definition smtp_send (s : smtp_session) : M unit :=
  fun w =>
    let w' := {| outbound := SmtpSend s :: outbound w; clock := clock w |} in
    match smtp_deliver E (outbound w) s with
    | Some d => (Raise (Exc SMTPException d), w')
    | None => (Ok tt, w')
    end.

Definition utcnow : M string :=
  fun w => (Ok (utcnow_isoformat E (clock w)),
            {| outbound := outbound w; clock := S (clock w) |}).

(** *** External integrations *)

Definition create_harvest_invoice (fields : NormalizedFields) : M pydict :=
  let token := HARVEST_TOKEN in
  let account_id := HARVEST_ACCOUNT_ID in
  if negb (truthy token) || negb (truthy account_id) then
    ret [("simulated", PBool true);
         ("message", PStr "Harvest not configured. Invoice not created.")]
  else
    let url := "https://api.harvestapp.com/v2/invoices" in
    let payload :=
      PDict [("client_id", account_id);
             ("currency", currency fields);
             ("issue_date", processed_at fields);
             ("purchase_order", PStr (str (order_number fields)));
             ("line_items",
              PList [PDict [("kind", PStr "Service");
                            ("description",
                             PStr ("Shopify Order " ++ str (order_number fields)));
                            ("quantity", PInt 1);
                            ("unit_price", PFloat (order_value fields))]])] in
    let headers := [("Authorization", "Bearer " ++ str token);
                    ("User-Agent", "shopify-n8n-companion/1.0")] in
    try_except
      (resp <- post {| url := url; params := []; json := Some payload;
                       headers := headers; auth := None; timeout := 20 |} ;;
       _ <- lift (raise_for_status resp) ;;
       body <- lift (resp_json resp) ;;
       ret [("simulated", PBool false); ("response", body)])
      (fun e => ret [("simulated", PBool false); ("error", PStr (exc_str e))]).

Definition create_trello_card (fields : NormalizedFields) : M pydict :=
  let key := TRELLO_KEY in
  let token := TRELLO_TOKEN in
  let list_id := TRELLO_LIST_ID in
  if negb (truthy key && truthy token && truthy list_id) then
    ret [("simulated", PBool true);
         ("message", PStr "Trello not configured. Card not created.")]
  else
    let url := "https://api.trello.com/1/cards" in
    let name := "Shopify order " ++ str (order_number fields) in
    let params :=
      [("key", key);
       ("token", token);
       ("idList", list_id);
       ("name", PStr name);
       ("desc", PStr ("Order URL: "
                      ++ str (py_or (order_status_url fields) (PStr "N/A"))))] in
    try_except
      (resp <- post {| url := url; params := params; json := None;
                       headers := []; auth := None; timeout := 10 |} ;;
       _ <- lift (raise_for_status resp) ;;
       body <- lift (resp_json resp) ;;
       ret [("simulated", PBool false); ("response", body)])
      (fun e => ret [("simulated", PBool false); ("error", PStr (exc_str e))]).

Definition upsert_zoho_contact (fields : NormalizedFields) : M pydict :=
  let token := ZOHO_ACCESS_TOKEN in
  if negb (truthy token) then
    ret [("simulated", PBool true);
         ("message", PStr "Zoho not configured. Contact not upserted.")]
  else
    let url := "https://www.zohoapis.com/crm/v2/Contacts/upsert" in
    let contact_data :=
      PDict [("Last_Name", py_or (customer_lastname fields) (PStr "Unknown"));
             ("First_Name", py_or (customer_firstname fields) (PStr ""));
             ("Email", py_or (customer_email fields) (PStr ""));
             ("Phone", py_or (customer_phone fields) (PStr ""));
             ("Mailing_City", py_or (customer_city fields) (PStr ""));
             ("Mailing_Street", py_or (customer_street fields) (PStr ""));
             ("Mailing_Zip", py_or (customer_zipcode fields) (PStr ""));
             ("Mailing_Country", py_or (customer_country fields) (PStr ""))] in
    let headers := [("Authorization", "Zoho-oauthtoken " ++ str token);
                    ("Content-Type", "application/json")] in
    let payload := PDict [("data", PList [contact_data]);
                          ("duplicate_check_fields", PList [PStr "Email"])] in
    try_except
      (resp <- post {| url := url; params := []; json := Some payload;
                       headers := headers; auth := None; timeout := 15 |} ;;
       _ <- lift (raise_for_status resp) ;;
       body <- lift (resp_json resp) ;;
       ret [("simulated", PBool false); ("response", body)])
      (fun e => ret [("simulated", PBool false); ("error", PStr (exc_str e))]).

Definition mailchimp_add_tag (fields : NormalizedFields) (tag : pyval) : M pydict :=
  let api_key := MAILCHIMP_API_KEY in
  let list_id := MAILCHIMP_LIST_ID in
  let server := MAILCHIMP_SERVER_PREFIX in
  if negb (truthy api_key && truthy list_id && truthy server) then
    ret [("simulated", PBool true);
         ("message", PStr "Mailchimp not configured. Tag not added.")]
  else
    let email := customer_email fields in
    if negb (truthy email) then
      ret [("simulated", PBool true); ("message", PStr "No email provided.")]
    else
      lowered <- lift (py_lower email) ;;
      let member_hash := md5_hexdigest E lowered in
      let url := "https://" ++ str server ++ ".api.mailchimp.com/3.0/lists/"
                 ++ str list_id ++ "/members/" ++ member_hash ++ "/tags" in
      let payload :=
        PDict [("tags", PList [PDict [("name", tag); ("status", PStr "active")]])] in
      let auth := (PStr "anystring", api_key) in
      try_except
        (resp <- post {| url := url; params := []; json := Some payload;
                         headers := []; auth := Some auth; timeout := 10 |} ;;
         _ <- lift (raise_for_status resp) ;;
         body <- lift (resp_json resp) ;;
         ret [("simulated", PBool false); ("response", body)])
        (fun e => ret [("simulated", PBool false); ("error", PStr (exc_str e))]).

Definition send_email_smtp (to_email : pyval) (subject message : string) : M pydict :=
  let smtp_server := GMAIL_SMTP_SERVER in
  let smtp_port := GMAIL_SMTP_PORT in
  let smtp_user := GMAIL_SMTP_USER in
  let smtp_pass := GMAIL_SMTP_PASS in
  if negb (truthy smtp_server && truthy smtp_port && truthy smtp_user && truthy smtp_pass) then
    ret [("simulated", PBool true);
         ("message", PStr "SMTP not configured. Email not sent.")]
  else
    let msg := {| payload := message; Subject := subject;
                  From := smtp_user; To := to_email |} in
    try_except
      (port <- lift (py_int smtp_port) ;;
       _ <- smtp_send {| smtp_host := smtp_server; smtp_port_number := port;
                         smtp_timeout := 20; login := (smtp_user, smtp_pass);
                         sendmail_from := smtp_user; sendmail_to := [to_email];
                         sendmail_msg := msg |} ;;
       ret [("simulated", PBool false); ("message", PStr "Email sent via SMTP")])
      (fun e => ret [("simulated", PBool false); ("error", PStr (exc_str e))]).

(** *** Core orchestration *)

Variable main : main_module.

Definition process_order (order_json : pydict) : M result_dict :=
  started <- utcnow ;;
  let result := [("started_at", Timestamp started)] in
  fields <- lift (extract_fields order_json) ;;
  let result := dict_set result "fields" (Fields fields) in
  harvest_result <- create_harvest_invoice fields ;;
  let result := dict_set result "harvest" (Adapter harvest_result) in
  trello_result <- create_trello_card fields ;;
  let result := dict_set result "trello" (Adapter trello_result) in
  zoho_result <- upsert_zoho_contact fields ;;
  let result := dict_set result "zoho" (Adapter zoho_result) in
  (* fields.get("order_value", 0) or 0: a zero float gives the int 0,
     which compares as 0.0 does *)
  let order_value := if truthy (PFloat (order_value fields))
                     then order_value fields else S754_zero false in
  let to_email := py_or (customer_email fields) (PStr "") in
  result <-
  (if SFltb (COUPON_THRESHOLD main) order_value then
     let message :=
       "Hi " ++ str (customer_firstname fields) ++ "," ++ nl ++ nl
       ++ "Thank you for your order! Here's a 15% coupon code to use for your next order: "
       ++ str (COUPON_CODE main) ++ nl ++ nl ++ "Best," ++ nl ++ "Shop Owner" in
     send_res <- send_email_smtp to_email "Your Shopify order - coupon" message ;;
     let result := dict_set result "coupon_email" (Adapter send_res) in
     mc_res <- mailchimp_add_tag fields (MAILCHIMP_HIGH_ORDER_TAG main) ;;
     ret (dict_set result "mailchimp" (Adapter mc_res))
   else
     let message :=
       "Hi " ++ str (customer_firstname fields) ++ "," ++ nl ++ nl
       ++ "Thank you for your order! We're getting it ready for shipping it to you."
       ++ nl ++ nl ++ "Best," ++ nl ++ "Shop Owner" in
     send_res <- send_email_smtp to_email "Your Shopify order - thank you" message ;;
     ret (dict_set result "thankyou_email" (Adapter send_res))) ;;
  finished <- utcnow ;;
  ret (dict_set result "finished_at" (Timestamp finished)).

End Program.

(** ** Entry points: [config.as_dict], [cli_main] and the webhook *)

(** What the entry points use besides the [environment]: the directory of
    the scripts ([ROOT]), whether Flask could be imported, [json.loads]
    ([inl d] is a [JSONDecodeError] whose [str] is [d]),
    [json.dumps(result, indent=2, ensure_ascii=False)], the file system
    ([inl d] and [Some d]: the call raises, an [OSError] or a decoding
    error, and [d] is the text of the exception) and
    [datetime.utcnow().strftime("%Y%m%dT%H%M%SZ")] at the n-th reading of
    the clock. *)
Record host := {
  ROOT : string;
  flask_installed : bool;
  json_loads : string -> string + pyval;
  json_dumps : result_dict -> string;
  path_exists : string -> bool;
  read_text : string -> string + string;
  mkdir : string -> option string;
  write_text : string -> string -> option string;
  utcnow_strftime : nat -> string
}.

(** [a / b] for an absolute POSIX path [a] and a relative name [b]. *)
Definition path_join (a b : string) : string :=
  if (a =? "/")%string then "/" ++ b else a ++ "/" ++ b.

(** What [parser.parse_args()] returns. The three sources of the order are
    in one mutually exclusive group, so at most one of them is given. *)
Record namespace := {
  order_file : option string;
  order_json : option string;
  run_server : bool;
  port : Z;
  save_output : bool
}.

Inductive fs_op :=
| Mkdir (path : string)
| WriteText (path content : string).

(** The process as [cli_main] leaves it: the world of the integrations, the
    lines printed (latest first) and the changes to the file system (latest
    first). *)
Record terminal := {
  net : world;
  stdout : list string;
  stderr : list string;
  files : list fs_op
}.

Inductive ending :=
| Returned
| Exited (code : Z)             (* sys.exit(code) *)
| Uncaught (e : exn)            (* a traceback *)
| OSFailed (description : string)
| Served (on_port : Z).         (* run_server(port) was entered *)

Inductive reply_body :=
| ErrorBody (d : pydict)
| ResultBody (r : result_dict).

Inductive reply :=
| Reply (status : Z) (body : reply_body)
| Unhandled (e : exn).          (* Flask answers 500 *)

Section Entry.

Variable H : host.
Variable E : environment.
Variable main : main_module.

(** *** config.py, continued *)

Definition OUTPUT_DIR : pyval :=
  getenv E "OUTPUT_DIR" (PStr (path_join (ROOT H) "outputs")).

Definition as_dict : pydict :=
  [("HARVEST_TOKEN", HARVEST_TOKEN E);
   ("HARVEST_ACCOUNT_ID", HARVEST_ACCOUNT_ID E);
   ("TRELLO_KEY", TRELLO_KEY E);
   ("TRELLO_TOKEN", TRELLO_TOKEN E);
   ("TRELLO_LIST_ID", TRELLO_LIST_ID E);
   ("ZOHO_ACCESS_TOKEN", ZOHO_ACCESS_TOKEN E);
   ("MAILCHIMP_API_KEY", MAILCHIMP_API_KEY E);
   ("MAILCHIMP_LIST_ID", MAILCHIMP_LIST_ID E);
   ("MAILCHIMP_SERVER_PREFIX", MAILCHIMP_SERVER_PREFIX E);
   ("GMAIL_SMTP_SERVER", GMAIL_SMTP_SERVER E);
   ("GMAIL_SMTP_PORT", GMAIL_SMTP_PORT E);
   ("GMAIL_SMTP_USER", GMAIL_SMTP_USER E);
   ("OUTPUT_DIR", OUTPUT_DIR)].

(** *** CLI and optional webhook *)

(** [process_order(order)] on whatever [json.loads] returned: a value that
    is not a dictionary fails at the first [order_json.get], after the
    clock has been read for [started_at]. *)
Definition process_order_on (order : pyval) : M result_dict :=
  match order with
  | PDict d => process_order E main d
  | _ =>
      _ <- utcnow E ;;
      lift (Raise (Exc AttributeError
                     ("'" ++ type_name order ++ "' object has no attribute 'get'")))
  end.

Definition print (line : string) (t : terminal) : terminal :=
  {| net := net t; stdout := line :: stdout t; stderr := stderr t; files := files t |}.

Definition eprint (line : string) (t : terminal) : terminal :=
  {| net := net t; stdout := stdout t; stderr := line :: stderr t; files := files t |}.

Definition did (op : fs_op) (t : terminal) : terminal :=
  {| net := net t; stdout := stdout t; stderr := stderr t; files := op :: files t |}.

Definition with_net (w : world) (t : terminal) : terminal :=
  {| net := w; stdout := stdout t; stderr := stderr t; files := files t |}.

(** [v.get(k, default)]: only a [dict] has the method. *)
Definition py_get_default (v : pyval) (k : string) (default : pyval) : result pyval :=
  match v with
  | PDict d => Ok (dict_get d k default)
  | _ => Raise (Exc AttributeError
                  ("'" ++ type_name v ++ "' object has no attribute 'get'"))
  end.

(** [order.get('order_number', order.get('id', 'unknown'))] *)
Definition order_label (order : pyval) : result pyval :=
  (id <- py_get_default order "id" (PStr "unknown") ;;
   py_get_default order "order_number" id)%result.

(** The part of [cli_main] after the order is decoded. *)
Definition run_order (args : namespace) (order : pyval) (t : terminal)
  : ending * terminal :=
  match process_order_on order (net t) with
  | (Raise e, w) => (Uncaught e, with_net w t)
  | (Ok result, w) =>
      let t := print (json_dumps H result) (with_net w t) in
      if save_output args then
        let out_dir := path_join (ROOT H) "outputs" in
        match mkdir H out_dir with
        | Some d => (OSFailed d, t)
        | None =>
            let t := did (Mkdir out_dir) t in
            let ts := utcnow_strftime H (clock (net t)) in
            let t := with_net {| outbound := outbound (net t);
                                 clock := S (clock (net t)) |} t in
            match order_label order with
            | Raise e => (Uncaught e, t)
            | Ok label =>
                let out_path :=
                  path_join out_dir
                    (ts ++ "_order_" ++ py_str (float_repr E) label ++ ".json") in
                match write_text H out_path (json_dumps H result) with
                | Some d => (OSFailed d, t)
                | None =>
                    (Returned,
                     print ("Saved result to " ++ out_path)
                       (did (WriteText out_path (json_dumps H result)) t))
                end
            end
        end
      else (Returned, t)
  end.

(** [order = json.loads(text)] and what follows. *)
Definition loads_and_run (args : namespace) (text : string) (t : terminal)
  : ending * terminal :=
  match json_loads H text with
  | inl d => (Uncaught (Exc ValueError d), t)
  | inr order => run_order args order t
  end.

(** The [else] branch: [json.loads(args.order_json)]. *)
Definition from_order_json (args : namespace) (t : terminal) : ending * terminal :=
  match order_json args with
  | Some text => loads_and_run args text t
  | None =>
      (Uncaught (Exc TypeError
                   "the JSON object must be str, bytes or bytearray, not NoneType"),
       t)
  end.

Definition cli_main (args : namespace) (t : terminal) : ending * terminal :=
  if run_server args then
    if negb (flask_installed H) then
      (Exited 1,
       eprint "Flask is not installed. Install Flask to use --run-server:" t)
    else (Served (port args), t)
  else
    match order_file args with
    | Some p =>
        (* if args.order_file: the empty path is falsy *)
        if (p =? "")%string then from_order_json args t
        else if negb (path_exists H p) then
          (Exited 2, eprint ("Order file not found: " ++ p) t)
        else
          match read_text H p with
          | inl d => (OSFailed d, t)
          | inr text => loads_and_run args text t
          end
    | None => from_order_json args t
    end.

(** The handler of [POST /webhook/order-created]. *)
Definition webhook_order_created (body : string) : world -> reply * world :=
  fun w =>
    match json_loads H body with
    | inl _ => (Reply 400 (ErrorBody [("error", PStr "invalid json")]), w)
    | inr order =>
        match process_order_on order w with
        | (Ok res, w') => (Reply 200 (ResultBody res), w')
        | (Raise e, w') => (Unhandled e, w')
        end
    end.

End Entry.

(** * Specification vocabulary *)

(** ** Reading an adapter's result *)

Definition simulated (m : string) : pydict :=
  [("simulated", PBool true); ("message", PStr m)].
Definition success (v : pyval) : pydict :=
  [("simulated", PBool false); ("response", v)].
Definition failure (d : string) : pydict :=
  [("simulated", PBool false); ("error", PStr d)].
Definition sent : pydict :=
  [("simulated", PBool false); ("message", PStr "Email sent via SMTP")].

Inductive outcome := Simulated | Success | Failure.

(** How a caller tells the three forms apart: by the [simulated] flag, then
    by the presence of [error]. *)
Definition classify (r : pydict) : option outcome :=
  match lookup "simulated" r with
  | Some (PBool true) => Some Simulated
  | Some (PBool false) =>
      match lookup "error" r with
      | Some _ => Some Failure
      | None => Some Success
      end
  | _ => None
  end.

(** What the [try] block around a POST returns, by how the POST ended. *)
Definition post_result (o : post_outcome) : pydict :=
  match o with
  | PostRaises d => failure d
  | PostReturns r =>
      match raise_for_status r with
      | Raise e => failure (exc_str e)
      | Ok _ =>
          match resp_json r with
          | Raise e => failure (exc_str e)
          | Ok v => success v
          end
      end
  end.

(** ** Worlds and runs *)

Definition logged (c : call) (w : world) : world :=
  {| outbound := c :: outbound w; clock := clock w |}.

Definition tick (w : world) : world :=
  {| outbound := outbound w; clock := S (clock w) |}.


Definition returns {A} (run : M A) (w : world) : Prop :=
  exists r w', run w = (Ok r, w').

(** The adapter made one POST and returned what its [try] block makes of
    the way the POST ended. *)
Definition posts_once (E : environment) (run : M pydict) (w : world) : Prop :=
  exists req,
    run w = (Ok (post_result (requests_post E (outbound w) req)), logged (HttpPost req) w).

(** An adapter that tests its configuration and then makes one POST. *)
Definition http_adapter (E : environment) (configured : bool) (message : string)
  (run : M pydict) : Prop :=
  forall w,
    (configured = false /\ run w = (Ok (simulated message), w))
    \/ (configured = true /\ posts_once E run w).

(** With [b] telling whether the adapter had what it needs, its result reads
    as simulated exactly when it had not, and then no call was made. *)
Definition simulated_unless (b : bool) (run : M pydict) (w : world) : Prop :=
  forall r w', run w = (Ok r, w') ->
    (b = false -> classify r = Some Simulated /\ w' = w)
    /\ (b = true -> classify r = Some Success \/ classify r = Some Failure).

(** ** Configuration *)

Definition harvest_configured (E : environment) : bool :=
  truthy (HARVEST_TOKEN E) && truthy (HARVEST_ACCOUNT_ID E).
Definition trello_configured (E : environment) : bool :=
  truthy (TRELLO_KEY E) && truthy (TRELLO_TOKEN E) && truthy (TRELLO_LIST_ID E).
Definition zoho_configured (E : environment) : bool :=
  truthy (ZOHO_ACCESS_TOKEN E).
Definition mailchimp_configured (E : environment) : bool :=
  truthy (MAILCHIMP_API_KEY E) && truthy (MAILCHIMP_LIST_ID E)
  && truthy (MAILCHIMP_SERVER_PREFIX E).
Definition smtp_configured (E : environment) : bool :=
  truthy (GMAIL_SMTP_SERVER E) && truthy (GMAIL_SMTP_PORT E)
  && truthy (GMAIL_SMTP_USER E) && truthy (GMAIL_SMTP_PASS E).

Definition is_ok {A} (r : result A) : bool :=
  match r with
  | Ok _ => true
  | Raise _ => false
  end.

(** The email adapter opens one SMTP session when it is configured with a
    numeric port, and none otherwise. *)
Definition smtp_sessions (E : environment) : nat :=
  if smtp_configured E && is_ok (py_int (GMAIL_SMTP_PORT E)) then 1%nat else 0%nat.

(** ** Orders *)

Definition is_str (v : pyval) : bool :=
  match v with
  | PStr _ => true
  | _ => false
  end.

Definition is_dict (v : pyval) : bool :=
  match v with
  | PDict _ => true
  | _ => false
  end.


Definition null_or_absent (k : string) (order : pydict) : Prop :=
  lookup k order = Some PNone \/ lookup k order = None.

Definition customer_of (order : pydict) : pyval :=
  py_or (dict_get order "customer" (PDict [])) (PDict []).
Definition shipping_of (order : pydict) : pyval :=
  py_or (dict_get order "shipping_address" (PDict [])) (PDict []).
Definition price_of (order : pydict) : pyval :=
  py_or (dict_get order "current_total_price" (PInt 0)) (PInt 0).

(** The customer's [default_address] is absent, falsy or an object. *)
Definition address_ok (c : pydict) : bool :=
  negb (truthy (dict_get c "default_address" PNone))
  || is_dict (dict_get c "default_address" PNone).

(** [customer] and [shipping_address] are absent, falsy or objects, and so
    is the customer's [default_address]. *)
Definition well_nested (order : pydict) : bool :=
  match customer_of order, shipping_of order with
  | PDict c, PDict _ => address_ok c
  | _, _ => false
  end.

Definition phone_of (c : pydict) : pyval :=
  if truthy (dict_get c "default_address" PNone) then
    match dict_get c "default_address" PNone with
    | PDict a => dict_get a "phone" PNone
    | _ => PNone
    end
  else PNone.

(** The fields of an order whose customer is the object [c], whose shipping
    address is the object [s] and whose price converts to [v]. *)
Definition fields_of (order c s : pydict) (v : float64) : NormalizedFields :=
  {| customer_phone := phone_of c;
     customer_zipcode := dict_get s "zip" PNone;
     order_value := v;
     customer_firstname := py_or (dict_get c "first_name" PNone) (PStr "");
     customer_lastname := py_or (dict_get c "last_name" PNone) (PStr "");
     customer_email := py_or (dict_get c "email" PNone) (PStr "");
     customer_country := py_or (dict_get s "country" PNone) (PStr "");
     customer_street := py_or (dict_get s "address1" PNone) (PStr "");
     customer_city := py_or (dict_get s "city" PNone) (PStr "");
     customer_province := py_or (dict_get s "province" PNone) (PStr "");
     order_number := py_or (dict_get order "order_number" PNone)
                           (dict_get order "id" PNone);
     order_status_url := dict_get order "order_status_url" PNone;
     currency := dict_get order "currency" PNone;
     processed_at := dict_get order "processed_at" PNone |}.

(** The entries [process_order] has set when the three adapters are done. *)
Definition base_result (started : string) (fields : NormalizedFields)
  (h t z : pydict) : result_dict :=
  [("started_at", Timestamp started); ("fields", Fields fields);
   ("harvest", Adapter h); ("trello", Adapter t); ("zoho", Adapter z)].

(** ** Environments and orders of the examples *)

(** Nothing is set in the environment. *)
Definition quiet : environment :=
  {| environ := fun _ => None;
     float_repr := fun _ => "";
     md5_hexdigest := fun s => s;
     requests_post := fun _ _ => PostRaises "Connection refused";
     smtp_deliver := fun _ _ => None;
     utcnow_isoformat := fun n => str_of_Z (Z.of_nat n) |}.

(** Every integration is configured and every call succeeds. *)
Definition live : environment :=
  {| environ := fun k =>
       if (k =? "GMAIL_SMTP_PORT")%string then Some "587"
       else if (k =? "COUPON_THRESHOLD")%string then None
       else if (k =? "COUPON_CODE")%string then None
       else if (k =? "MAILCHIMP_HIGH_ORDER_TAG")%string then None
       else Some "secret";
     float_repr := fun _ => "";
     md5_hexdigest := fun s => s;
     requests_post := fun _ req =>
       PostReturns {| status_code := 200; reason := "OK"; resp_url := url req;
                      decoded := inr (PDict []) |};
     smtp_deliver := fun _ _ => None;
     utcnow_isoformat := fun n => str_of_Z (Z.of_nat n) |}.



(** An environment in which no variable is set, with the interpreter, the
    network and the clock of [E]. *)
Definition unconfigured (E : environment) : environment :=
  {| environ := fun _ => None;
     float_repr := float_repr E;
     md5_hexdigest := md5_hexdigest E;
     requests_post := requests_post E;
     smtp_deliver := smtp_deliver E;
     utcnow_isoformat := utcnow_isoformat E |}.

Definition fresh_world : world := {| outbound := []; clock := 0 |}.

Definition fifty : float64 := S754_finite false (50 * 2 ^ 47) (-47).
Definition seventy_five : float64 := S754_finite false (75 * 2 ^ 46) (-46).

Definition default_main : main_module :=
  {| COUPON_THRESHOLD := fifty;
     COUPON_CODE := PStr "COUPON15";
     MAILCHIMP_HIGH_ORDER_TAG := PStr "high-order" |}.

Definition no_fields : NormalizedFields :=
  {| customer_phone := PNone; customer_zipcode := PNone;
     order_value := S754_zero false;
     customer_firstname := PStr ""; customer_lastname := PStr "";
     customer_email := PStr ""; customer_country := PStr "";
     customer_street := PStr ""; customer_city := PStr "";
     customer_province := PStr "";
     order_number := PNone; order_status_url := PNone;
     currency := PNone; processed_at := PNone |}.

Definition order_ana : pydict :=
  [("current_total_price", PStr "75.00");
   ("customer", PDict [("first_name", PStr "Ana"); ("email", PStr "a@x.com")]);
   ("shipping_address", PDict [("zip", PStr "1000")])].

Definition fields_ana : NormalizedFields :=
  {| customer_phone := PNone; customer_zipcode := PStr "1000";
     order_value := seventy_five;
     customer_firstname := PStr "Ana"; customer_lastname := PStr "";
     customer_email := PStr "a@x.com"; customer_country := PStr "";
     customer_street := PStr ""; customer_city := PStr "";
     customer_province := PStr "";
     order_number := PNone; order_status_url := PNone;
     currency := PNone; processed_at := PNone |}.


Definition order_nulls : pydict :=
  [("customer", PNone); ("shipping_address", PNone); ("current_total_price", PStr "20")].

Definition order_numeric_email : pydict :=
  [("current_total_price", PStr "75.00"); ("customer", PDict [("email", PInt 5)])].

(** ** Vocabulary of the further properties *)

(** The top-level keys of an order that [extract_fields] reads. *)
Definition order_keys : list string :=
  ["customer"; "shipping_address"; "current_total_price"; "order_number"; "id";
   "order_status_url"; "currency"; "processed_at"].

(** The variables the adapters are configured by. *)
Definition config_keys : list string :=
  ["HARVEST_TOKEN"; "HARVEST_ACCOUNT_ID"; "TRELLO_KEY"; "TRELLO_TOKEN";
   "TRELLO_LIST_ID"; "ZOHO_ACCESS_TOKEN"; "MAILCHIMP_API_KEY"; "MAILCHIMP_LIST_ID";
   "MAILCHIMP_SERVER_PREFIX"; "GMAIL_SMTP_SERVER"; "GMAIL_SMTP_PORT";
   "GMAIL_SMTP_USER"; "GMAIL_SMTP_PASS"].

(** [E] with another process environment. *)
Definition with_environ (E : environment) (env : string -> option string)
  : environment :=
  {| environ := env;
     float_repr := float_repr E;
     md5_hexdigest := md5_hexdigest E;
     requests_post := requests_post E;
     smtp_deliver := smtp_deliver E;
     utcnow_isoformat := utcnow_isoformat E |}.

(** A field that is the empty string or a truthy value: never null. *)
Definition text_or_empty (v : pyval) : Prop := v = PStr "" \/ truthy v = true.

(** The coupon branch is taken. *)
Definition high_value (main : main_module) (f : NormalizedFields) : bool :=
  SFltb (COUPON_THRESHOLD main) (order_value f).

(** The tagging adapter is called and reaches [email.lower()]. *)
Definition tagging_reached (E : environment) (main : main_module)
  (f : NormalizedFields) : bool :=
  high_value main f && mailchimp_configured E && truthy (customer_email f).

(** The number of outbound calls of a run on extracted fields. *)
Definition calls_of (E : environment) (main : main_module) (f : NormalizedFields)
  : nat :=
  (Nat.b2n (harvest_configured E) + Nat.b2n (trello_configured E)
   + Nat.b2n (zoho_configured E) + smtp_sessions E
   + Nat.b2n (tagging_reached E main f && is_str (customer_email f)))%nat.

(** From [w] to [w'] the clock was left alone and exactly [n] outbound
    calls were added, each satisfying [P]; nothing logged before was lost. *)
Definition effect (P : call -> Prop) (n : nat) (w w' : world) : Prop :=
  clock w' = clock w
  /\ exists new, outbound w' = (new ++ outbound w)%list
                 /\ List.length new = n /\ Forall P new.

Definition posts_to (u : string) (t : Z) (c : call) : Prop :=
  exists req, c = HttpPost req /\ url req = u /\ timeout req = t.

Definition is_smtp (c : call) : Prop := exists s, c = SmtpSend s.

(** The member endpoint of the tagging adapter for the email [s]. *)
Definition mailchimp_url (E : environment) (s : string) : string :=
  "https://" ++ py_str (float_repr E) (MAILCHIMP_SERVER_PREFIX E)
  ++ ".api.mailchimp.com/3.0/lists/" ++ py_str (float_repr E) (MAILCHIMP_LIST_ID E)
  ++ "/members/" ++ md5_hexdigest E (lower s) ++ "/tags".

Definition posts_tag (E : environment) (f : NormalizedFields) (c : call) : Prop :=
  exists s, customer_email f = PStr s /\ posts_to (mailchimp_url E s) 10 c.

Definition any_call (c : call) : Prop := True.




(** A host whose [json.loads] knows three texts and whose only file is
    [order.json]. *)
Definition laptop : host :=
  {| ROOT := "/srv/app";
     flask_installed := false;
     json_loads := fun s =>
       if (s =? "{}")%string then inr (PDict [])
       else if (s =? "[]")%string then inr (PList [])
       else if (s =? "ana")%string then inr (PDict order_ana)
       else inl "Expecting value: line 1 column 1 (char 0)";
     json_dumps := fun r => String.concat "," (map fst r);
     path_exists := fun p => (p =? "order.json")%string;
     read_text := fun p => if (p =? "order.json")%string then inr "ana"
                           else inl "No such file or directory";
     mkdir := fun _ => None;
     write_text := fun _ _ => None;
     utcnow_strftime := fun n => str_of_Z (Z.of_nat n) |}.

Definition fresh_terminal : terminal :=
  {| net := fresh_world; stdout := []; stderr := []; files := [] |}.

Definition args_json (text : string) (save : bool) : namespace :=
  {| order_file := None; order_json := Some text; run_server := false;
     port := 5000; save_output := save |}.



Definition order_shuffled : pydict :=
  [("note", PStr "gift");
   ("shipping_address", PDict [("zip", PStr "1000")]);
   ("customer", PDict [("first_name", PStr "Ana"); ("email", PStr "a@x.com")]);
   ("current_total_price", PStr "75.00")].

Definition order_doubly_bad : pydict :=
  [("customer", PStr "abc"); ("current_total_price", PStr "abc")].


(** * Properties *)

(** ** Facts about values *)

Example float_of_string_75 :
  float_of_string "75.00" = Some seventy_five
  /\ float_of_string "50" = Some fifty
  /\ float_of_string " -1e-3 " = Some (S754_finite true 4611686018427388 (-62))
  /\ float_of_string "9007199254740993" = Some (S754_finite false (2 ^ 52) 1)
  /\ float_of_string "1e400" = Some (S754_infinity false)
  /\ float_of_string "1_0.5" = Some (S754_finite false (21 * 2 ^ 48) (-49))
  /\ float_of_string "abc" = None
  /\ float_of_string "1e" = None
  /\ float_of_string "" = None.
Proof. vm_compute. repeat split. Qed.

Example int_of_string_587 :
  int_of_string " 5_87" = Some 587 /\ int_of_string "5a" = None.
Proof. split; reflexivity. Qed.




(** [v or 0] compares as [v] does. *)
Lemma SFltb_or_zero (t v : float64) :
  SFltb t (if truthy (PFloat v) then v else S754_zero false) = SFltb t v.
Proof. destruct v, t; reflexivity. Qed.

Lemma lookup_dict_set_same {V} (d : list (string * V)) k v :
  lookup k (dict_set d k v) = Some v.
Proof.
  induction d as [ | [k' v'] d IH]; cbn.
  - now rewrite String.eqb_refl.
  - destruct (k' =? k)%string eqn:Hk; cbn.
    + now rewrite String.eqb_refl.
    + now rewrite Hk.
Qed.

Lemma lookup_dict_set_other {V} (d : list (string * V)) k k' v :
  k <> k' -> lookup k' (dict_set d k v) = lookup k' d.
Proof.
  intros Hne. induction d as [ | [k0 v0] d IH]; cbn.
  - destruct (k =? k')%string eqn:Hk; [ | reflexivity].
    apply String.eqb_eq in Hk. contradiction.
  - destruct (k0 =? k)%string eqn:Hk; cbn.
    + apply String.eqb_eq in Hk. subst k0.
      destruct (k =? k')%string eqn:Hk'; [ | reflexivity].
      apply String.eqb_eq in Hk'. contradiction.
    + now rewrite IH.
Qed.

Lemma dict_get_absent (d : pydict) k default :
  lookup k d = None -> dict_get d k default = default.
Proof. unfold dict_get. now intros ->. Qed.

Lemma dict_get_present (d : pydict) k default v :
  lookup k d = Some v -> dict_get d k default = v.
Proof. unfold dict_get. now intros ->. Qed.

Lemma dict_get_set_same (d : pydict) k v default :
  dict_get (dict_set d k v) k default = v.
Proof. unfold dict_get. now rewrite lookup_dict_set_same. Qed.

Lemma dict_get_set_other (d : pydict) k k' v default :
  k <> k' -> dict_get (dict_set d k v) k' default = dict_get d k' default.
Proof. intros H. unfold dict_get. now rewrite lookup_dict_set_other. Qed.

Lemma classify_post_result (o : post_outcome) :
  classify (post_result o) = Some Success \/ classify (post_result o) = Some Failure.
Proof.
  destruct o as [d | r]; cbn [post_result]; [now right | ].
  destruct (raise_for_status r); [ | now right].
  destruct (resp_json r); [now left | now right].
Qed.

(** ** What each adapter does *)

(** The [try] block the four HTTP adapters share never raises. *)
Lemma try_post (E : environment) (req : http_request) (w : world) :
  try_except
    (resp <- post E req ;;
     _ <- lift (raise_for_status resp) ;;
     body <- lift (resp_json resp) ;;
     ret [("simulated", PBool false); ("response", body)])
    (fun e => ret [("simulated", PBool false); ("error", PStr (exc_str e))]) w
  = (Ok (post_result (requests_post E (outbound w) req)), logged (HttpPost req) w).
Proof.
  unfold try_except, bind, post, lift, ret, post_result, logged.
  destruct (requests_post E (outbound w) req) as [d | r]; [reflexivity | ].
  destruct (raise_for_status r) as [[] | e]; [ | reflexivity].
  destruct (resp_json r); reflexivity.
Qed.

Lemma create_harvest_invoice_spec E fields :
  http_adapter E (harvest_configured E) "Harvest not configured. Invoice not created."
    (create_harvest_invoice E fields).
Proof.
  intros w. unfold harvest_configured, posts_once, create_harvest_invoice.
  destruct (truthy (HARVEST_TOKEN E)), (truthy (HARVEST_ACCOUNT_ID E)); cbn [negb orb andb];
    try (left; split; reflexivity).
  right. split; [reflexivity | ]. eexists. apply try_post.
Qed.

Lemma create_trello_card_spec E fields :
  http_adapter E (trello_configured E) "Trello not configured. Card not created."
    (create_trello_card E fields).
Proof.
  intros w. unfold trello_configured, posts_once, create_trello_card.
  destruct (truthy (TRELLO_KEY E)), (truthy (TRELLO_TOKEN E)), (truthy (TRELLO_LIST_ID E));
    cbn [negb orb andb]; try (left; split; reflexivity).
  right. split; [reflexivity | ]. eexists. apply try_post.
Qed.

Lemma upsert_zoho_contact_spec E fields :
  http_adapter E (zoho_configured E) "Zoho not configured. Contact not upserted."
    (upsert_zoho_contact E fields).
Proof.
  intros w. unfold zoho_configured, posts_once, upsert_zoho_contact.
  destruct (truthy (ZOHO_ACCESS_TOKEN E)); cbn [negb];
    try (left; split; reflexivity).
  right. split; [reflexivity | ]. eexists. apply try_post.
Qed.

Lemma mailchimp_add_tag_spec E fields tag w :
  (mailchimp_configured E = false /\
   mailchimp_add_tag E fields tag w
   = (Ok (simulated "Mailchimp not configured. Tag not added."), w))
  \/ (mailchimp_configured E = true /\ truthy (customer_email fields) = false /\
      mailchimp_add_tag E fields tag w = (Ok (simulated "No email provided."), w))
  \/ (mailchimp_configured E = true /\ truthy (customer_email fields) = true /\
      is_str (customer_email fields) = true /\
      posts_once E (mailchimp_add_tag E fields tag) w)
  \/ (mailchimp_configured E = true /\ truthy (customer_email fields) = true /\
      is_str (customer_email fields) = false /\
      exists e, exc_type e = AttributeError /\
                mailchimp_add_tag E fields tag w = (Raise e, w)).
Proof.
  unfold mailchimp_configured, posts_once, mailchimp_add_tag.
  destruct (truthy (MAILCHIMP_API_KEY E)), (truthy (MAILCHIMP_LIST_ID E)),
    (truthy (MAILCHIMP_SERVER_PREFIX E)); cbn [negb orb andb];
    try (left; split; reflexivity).
  right. destruct (truthy (customer_email fields)) eqn:Ht; cbn [negb].
  - right. destruct (customer_email fields) as [ | b | z | f | s | l | d] eqn:He;
      cbn [is_str];
      try (right; repeat (split; [first [reflexivity | assumption] | ]);
           eexists; split; [ | reflexivity]; reflexivity).
    left. repeat (split; [first [reflexivity | assumption] | ]).
    unfold bind at 1, lift at 1. cbn [py_lower]. eexists. apply try_post.
  - left. repeat split; reflexivity.
Qed.

Lemma send_email_smtp_spec E to_email subject message w :
  (smtp_configured E = false /\
   send_email_smtp E to_email subject message w
   = (Ok (simulated "SMTP not configured. Email not sent."), w))
  \/ (smtp_configured E = true /\
      exists e, py_int (GMAIL_SMTP_PORT E) = Raise e /\
                send_email_smtp E to_email subject message w = (Ok (failure (exc_str e)), w))
  \/ (smtp_configured E = true /\
      exists port session,
        py_int (GMAIL_SMTP_PORT E) = Ok port /\
        send_email_smtp E to_email subject message w
        = (Ok (match smtp_deliver E (outbound w) session with
               | Some d => failure d
               | None => sent
               end),
           logged (SmtpSend session) w)).
Proof.
  unfold smtp_configured, send_email_smtp.
  destruct (truthy (GMAIL_SMTP_SERVER E)), (truthy (GMAIL_SMTP_PORT E)),
    (truthy (GMAIL_SMTP_USER E)), (truthy (GMAIL_SMTP_PASS E)); cbn [negb orb andb];
    try (left; split; reflexivity).
  right. unfold try_except, bind, lift, ret.
  destruct (py_int (GMAIL_SMTP_PORT E)) as [port | e].
  - right. split; [reflexivity | ].
    match goal with |- context [smtp_send E ?s] => exists port, s end.
    split; [reflexivity | ]. unfold smtp_send, logged.
    destruct (smtp_deliver E (outbound w) _); reflexivity.
  - left. split; [reflexivity | ]. exists e. split; reflexivity.
Qed.

(** What follows for any adapter of that form. *)
Section HttpAdapter.

Variable E : environment.
Variable configured : bool.
Variable message : string.
Variable run : M pydict.
Hypothesis Hrun : http_adapter E configured message run.

Lemma http_adapter_returns w : returns run w.
Proof.
  destruct (Hrun w) as [[_ H] | [_ [req H]]]; unfold returns; rewrite H; now eexists _, _.
Qed.

Lemma http_adapter_unconfigured w :
  configured = false -> run w = (Ok (simulated message), w).
Proof. destruct (Hrun w) as [[_ H] | [C _]]; congruence. Qed.


Lemma http_adapter_simulated_unless w : simulated_unless configured run w.
Proof.
  intros r w' H. destruct (Hrun w) as [[C H'] | [C [req H']]];
    rewrite H' in H; injection H as <- <-; split; intros C'; try congruence.
  - now split.
  - apply classify_post_result.
Qed.


End HttpAdapter.

Lemma smtp_returns E to_email subject message w :
  returns (send_email_smtp E to_email subject message) w.
Proof.
  destruct (send_email_smtp_spec E to_email subject message w)
    as [[_ H] | [(_ & e & _ & H) | (_ & p & s & _ & H)]];
    unfold returns; rewrite H; now eexists _, _.
Qed.


Lemma mailchimp_simulated_unless E fields tag w :
  simulated_unless (mailchimp_configured E && truthy (customer_email fields))
    (mailchimp_add_tag E fields tag) w.
Proof.
  intros r w' H.
  destruct (mailchimp_add_tag_spec E fields tag w)
    as [[C H'] | [(C & T & H') | [(C & T & _ & [req H']) | (C & T & _ & e & _ & H')]]];
    rewrite C, ?T; cbn [andb]; rewrite H' in H; try discriminate H;
    injection H as <- <-; split; intros C'; try discriminate C'.
  - now split.
  - now split.
  - apply classify_post_result.
Qed.

Lemma smtp_simulated_unless E to_email subject message w :
  simulated_unless (smtp_configured E) (send_email_smtp E to_email subject message) w.
Proof.
  intros r w' H.
  destruct (send_email_smtp_spec E to_email subject message w)
    as [[C H'] | [(C & e & _ & H') | (C & p & s & _ & H')]];
    rewrite H' in H; injection H as <- <-; split; intros C'; try congruence.
  - now split.
  - now right.
  - destruct (smtp_deliver E (outbound w) s); [now right | now left].
Qed.



(** ** What [extract_fields] returns, and when *)

Lemma extract_fields_objects order c s :
  customer_of order = PDict c -> shipping_of order = PDict s -> address_ok c = true ->
  extract_fields order
  = (v <- py_float (price_of order) ;; Ok (fields_of order c s v))%result.
Proof.
  unfold customer_of, shipping_of, price_of, address_ok, extract_fields.
  intros -> -> Ha. unfold fields_of, phone_of. cbn [py_get rbind].
  destruct (truthy (dict_get c "default_address" PNone)) eqn:Ht; [ | reflexivity].
  cbn [negb orb] in Ha. unfold py_or. rewrite Ht.
  destruct (dict_get c "default_address" PNone); try discriminate Ha.
  reflexivity.
Qed.

Lemma extract_fields_raises order :
  well_nested order = false ->
  exists e, extract_fields order = Raise e /\ exc_type e = AttributeError.
Proof.
  unfold well_nested, customer_of, shipping_of, address_ok, extract_fields.
  destruct (py_or (dict_get order "customer" (PDict [])) (PDict []))
    as [ | b | z | f | t | l | c];
    try (intros _; eexists; split; reflexivity).
  cbn [py_get rbind].
  destruct (truthy (dict_get c "default_address" PNone)) eqn:Ht; cbn [negb orb].
  - unfold py_or at 2. rewrite Ht.
    destruct (dict_get c "default_address" PNone) as [ | b' | z' | f' | t' | l' | a];
      cbn [is_dict py_get rbind];
      try (intros _; eexists; split; reflexivity).
    destruct (py_or (dict_get order "shipping_address" (PDict [])) (PDict []));
      try discriminate; intros _; eexists; split; reflexivity.
  - destruct (py_or (dict_get order "shipping_address" (PDict [])) (PDict []));
      try discriminate; intros _; eexists; split; reflexivity.
Qed.

Lemma extract_fields_inv order f :
  extract_fields order = Ok f ->
  exists c s v,
    customer_of order = PDict c /\ shipping_of order = PDict s /\ address_ok c = true
    /\ py_float (price_of order) = Ok v /\ f = fields_of order c s v.
Proof.
  intros H. destruct (well_nested order) eqn:Hw.
  - unfold well_nested in Hw.
    destruct (customer_of order) as [ | | | | | | c] eqn:Hc; try discriminate Hw.
    destruct (shipping_of order) as [ | | | | | | s] eqn:Hs; try discriminate Hw.
    rewrite (extract_fields_objects order c s Hc Hs Hw) in H.
    destruct (py_float (price_of order)) as [v | e]; cbn [rbind] in H; [ | discriminate H].
    exists c, s, v. repeat split; congruence.
  - destruct (extract_fields_raises order Hw) as [e [He _]]. congruence.
Qed.


(** ** Field extraction: the claims *)




(** C4, as the code has it. When [customer] is absent the customer's first
    name, last name and email are the empty string and the phone is null;
    when [shipping_address] is absent the country, street, city and province
    are the empty string and the zip code is null. When both are absent,
    [extract_fields] can raise only where [float] rejects the price, and
    with the price absent too it returns with [order_value] 0.0. *)
Theorem missing_objects_default (order : pydict) :
  (lookup "customer" order = None ->
   forall f, extract_fields order = Ok f ->
     customer_firstname f = PStr "" /\ customer_lastname f = PStr ""
     /\ customer_email f = PStr "" /\ customer_phone f = PNone)
  /\ (lookup "shipping_address" order = None ->
      forall f, extract_fields order = Ok f ->
        customer_country f = PStr "" /\ customer_street f = PStr ""
        /\ customer_city f = PStr "" /\ customer_province f = PStr ""
        /\ customer_zipcode f = PNone)
  /\ (lookup "customer" order = None -> lookup "shipping_address" order = None ->
      (forall e, extract_fields order = Raise e -> py_float (price_of order) = Raise e)
      /\ (lookup "current_total_price" order = None ->
          exists f, extract_fields order = Ok f /\ order_value f = S754_zero false)).
Proof.
  split; [ | split].
  - intros Hc f H.
    destruct (extract_fields_inv order f H) as (c & s & v & Hc' & _ & _ & _ & ->).
    unfold customer_of in Hc'. rewrite (dict_get_absent _ _ _ Hc) in Hc'.
    injection Hc' as <-. repeat split; reflexivity.
  - intros Hs f H.
    destruct (extract_fields_inv order f H) as (c & s & v & _ & Hs' & _ & _ & ->).
    unfold shipping_of in Hs'. rewrite (dict_get_absent _ _ _ Hs) in Hs'.
    injection Hs' as <-. repeat split; reflexivity.
  - intros Hc Hs.
    assert (Hc' : customer_of order = PDict []).
    { unfold customer_of. now rewrite (dict_get_absent _ _ _ Hc). }
    assert (Hs' : shipping_of order = PDict []).
    { unfold shipping_of. now rewrite (dict_get_absent _ _ _ Hs). }
    rewrite (extract_fields_objects order [] [] Hc' Hs' eq_refl). split.
    + intros e. destruct (py_float (price_of order)); cbn [rbind]; congruence.
    + intros Hp. unfold price_of. rewrite (dict_get_absent _ _ _ Hp).
      eexists. split; reflexivity.
Qed.

(** C4 as stated fails: on an order without [customer] and
    [shipping_address] the phone and the zip code are null, not the empty
    string. *)
Lemma missing_objects_give_null :
  exists f, extract_fields [] = Ok f
            /\ customer_phone f = PNone /\ customer_zipcode f = PNone.
Proof. eexists. repeat split; reflexivity. Qed.

Lemma missing_objects_default_witness :
  (customer_firstname no_fields = PStr "" /\ customer_lastname no_fields = PStr ""
   /\ customer_email no_fields = PStr "" /\ customer_phone no_fields = PNone)
  /\ (exists f, extract_fields [("id", PInt 7)] = Ok f /\ order_value f = S754_zero false).
Proof.
  split.
  - apply (proj1 (missing_objects_default [])); reflexivity.
  - apply (proj2 (proj2 (missing_objects_default [("id", PInt 7)]))); reflexivity.
Defined.

(** C9. An order whose [customer] (or [shipping_address]) is present but
    null is extracted exactly as the order in which it is the empty object;
    and when both are null or absent nothing raises but, possibly, the
    conversion of the price. *)
Theorem null_object_is_empty_object (order : pydict) :
  (lookup "customer" order = Some PNone ->
   extract_fields order = extract_fields (dict_set order "customer" (PDict [])))
  /\ (lookup "shipping_address" order = Some PNone ->
      extract_fields order = extract_fields (dict_set order "shipping_address" (PDict [])))
  /\ (null_or_absent "customer" order -> null_or_absent "shipping_address" order ->
      (forall e, extract_fields order = Raise e -> py_float (price_of order) = Raise e)
      /\ (forall v, py_float (price_of order) = Ok v ->
                    extract_fields order = Ok (fields_of order [] [] v))).
Proof.
  split; [ | split].
  - intros H. unfold extract_fields.
    rewrite dict_get_set_same, (dict_get_present _ _ _ _ H).
    rewrite !dict_get_set_other by discriminate. reflexivity.
  - intros H. unfold extract_fields.
    rewrite dict_get_set_same, (dict_get_present _ _ _ _ H).
    rewrite !dict_get_set_other by discriminate. reflexivity.
  - intros Hc Hs.
    assert (Hc' : customer_of order = PDict []).
    { unfold customer_of.
      destruct Hc as [Hc | Hc];
        [rewrite (dict_get_present _ _ _ _ Hc) | rewrite (dict_get_absent _ _ _ Hc)];
        reflexivity. }
    assert (Hs' : shipping_of order = PDict []).
    { unfold shipping_of.
      destruct Hs as [Hs | Hs];
        [rewrite (dict_get_present _ _ _ _ Hs) | rewrite (dict_get_absent _ _ _ Hs)];
        reflexivity. }
    rewrite (extract_fields_objects order [] [] Hc' Hs' eq_refl).
    split; intros x; destruct (py_float (price_of order)); cbn [rbind]; congruence.
Qed.

Lemma null_object_is_empty_object_witness :
  extract_fields order_nulls = extract_fields (dict_set order_nulls "customer" (PDict []))
  /\ extract_fields order_nulls
     = Ok (fields_of order_nulls [] [] (S754_finite false (20 * 2 ^ 48) (-48))).
Proof.
  split.
  - apply (proj1 (null_object_is_empty_object order_nulls)). reflexivity.
  - apply (proj2 (proj2 (proj2 (null_object_is_empty_object order_nulls))
                   (or_introl eq_refl) (or_introl eq_refl))).
    vm_compute. reflexivity.
Defined.

(** ** The adapters: the claims *)

(** C5. Each of the five adapters, when something it requires is not
    configured, returns its simulated result and leaves the world as it
    was: no outbound call. The caller can tell: the result of an adapter
    reads as simulated exactly when the adapter lacked its configuration
    (for the tagging adapter: or the email), and as success or failure
    otherwise. *)
Theorem unconfigured_adapter_is_simulated
  (E : environment) (fields : NormalizedFields) (tag to_email : pyval)
  (subject message : string) (w : world) :
  (harvest_configured E = false ->
   create_harvest_invoice E fields w
   = (Ok (simulated "Harvest not configured. Invoice not created."), w))
  /\ (trello_configured E = false ->
      create_trello_card E fields w
      = (Ok (simulated "Trello not configured. Card not created."), w))
  /\ (zoho_configured E = false ->
      upsert_zoho_contact E fields w
      = (Ok (simulated "Zoho not configured. Contact not upserted."), w))
  /\ (mailchimp_configured E = false ->
      mailchimp_add_tag E fields tag w
      = (Ok (simulated "Mailchimp not configured. Tag not added."), w))
  /\ (smtp_configured E = false ->
      send_email_smtp E to_email subject message w
      = (Ok (simulated "SMTP not configured. Email not sent."), w))
  /\ simulated_unless (harvest_configured E) (create_harvest_invoice E fields) w
  /\ simulated_unless (trello_configured E) (create_trello_card E fields) w
  /\ simulated_unless (zoho_configured E) (upsert_zoho_contact E fields) w
  /\ simulated_unless (mailchimp_configured E && truthy (customer_email fields))
       (mailchimp_add_tag E fields tag) w
  /\ simulated_unless (smtp_configured E) (send_email_smtp E to_email subject message) w.
Proof.
  split; [ | split; [ | split; [ | split; [ | split]]]].
  - apply (http_adapter_unconfigured _ _ _ _ (create_harvest_invoice_spec E fields)).
  - apply (http_adapter_unconfigured _ _ _ _ (create_trello_card_spec E fields)).
  - apply (http_adapter_unconfigured _ _ _ _ (upsert_zoho_contact_spec E fields)).
  - destruct (mailchimp_add_tag_spec E fields tag w)
      as [[_ H] | [[C _] | [[C _] | [C _]]]]; congruence.
  - destruct (send_email_smtp_spec E to_email subject message w)
      as [[_ H] | [[C _] | [C _]]]; congruence.
  - split; [apply (http_adapter_simulated_unless _ _ _ _
                     (create_harvest_invoice_spec E fields)) | ].
    split; [apply (http_adapter_simulated_unless _ _ _ _
                     (create_trello_card_spec E fields)) | ].
    split; [apply (http_adapter_simulated_unless _ _ _ _
                     (upsert_zoho_contact_spec E fields)) | ].
    split; [apply mailchimp_simulated_unless | apply smtp_simulated_unless].
Qed.

Lemma unconfigured_adapter_is_simulated_witness :
  create_harvest_invoice quiet no_fields fresh_world
  = (Ok (simulated "Harvest not configured. Invoice not created."), fresh_world)
  /\ send_email_smtp quiet (PStr "a@x.com") "subject" "text" fresh_world
     = (Ok (simulated "SMTP not configured. Email not sent."), fresh_world).
Proof.
  split.
  - apply (proj1 (unconfigured_adapter_is_simulated
                    quiet no_fields PNone PNone "" "" fresh_world)).
    reflexivity.
  - apply (proj1 (proj2 (proj2 (proj2 (proj2 (unconfigured_adapter_is_simulated
                    quiet no_fields PNone (PStr "a@x.com") "subject" "text" fresh_world)))))).
    reflexivity.
Defined.

(** C10. Whatever is configured, the tagging adapter given fields without a
    customer email (empty, null or otherwise falsy) returns a simulated
    result, never a failure, and makes no call; with Mailchimp configured
    the reason is "No email provided.". *)
Theorem mailchimp_without_email_is_simulated
  (E : environment) (fields : NormalizedFields) (tag : pyval) (w : world) :
  truthy (customer_email fields) = false ->
  exists m,
    mailchimp_add_tag E fields tag w = (Ok (simulated m), w)
    /\ classify (simulated m) = Some Simulated
    /\ classify (simulated m) <> Some Failure
    /\ (mailchimp_configured E = true -> m = "No email provided.").
Proof.
  intros T.
  destruct (mailchimp_add_tag_spec E fields tag w)
    as [[C H] | [(C & _ & H) | [(_ & T' & _) | (_ & T' & _)]]]; try congruence.
  - eexists. split; [exact H | ].
    split; [reflexivity | split; [discriminate | congruence]].
  - eexists. split; [exact H | ].
    split; [reflexivity | split; [discriminate | reflexivity]].
Qed.

Lemma mailchimp_without_email_is_simulated_witness :
  truthy (customer_email no_fields) = false
  /\ mailchimp_configured live = true
  /\ exists m,
       mailchimp_add_tag live no_fields (PStr "high-order") fresh_world
       = (Ok (simulated m), fresh_world)
       /\ classify (simulated m) = Some Simulated
       /\ classify (simulated m) <> Some Failure
       /\ (mailchimp_configured live = true -> m = "No email provided.").
Proof.
  split; [reflexivity | ]. split; [reflexivity | ].
  apply (mailchimp_without_email_is_simulated live no_fields (PStr "high-order") fresh_world).
  reflexivity.
Defined.




(** ** Orchestration *)

(** Once the fields are extracted, the three adapters run one after the
    other, each in the world the previous one left, then the email of the
    branch, then (coupon branch) the tagging adapter. *)
Lemma process_order_run E main order fields w :
  extract_fields order = Ok fields ->
  exists h w1 t w2 z w3,
    create_harvest_invoice E fields (tick w) = (Ok h, w1)
    /\ create_trello_card E fields w1 = (Ok t, w2)
    /\ upsert_zoho_contact E fields w2 = (Ok z, w3)
    /\ let base := base_result (utcnow_isoformat E (clock w)) fields h t z in
       let to_email := py_or (customer_email fields) (PStr "") in
       if SFltb (COUPON_THRESHOLD main) (order_value fields) then
         exists message s w4,
           send_email_smtp E to_email "Your Shopify order - coupon" message w3 = (Ok s, w4)
           /\ process_order E main order w
              = match mailchimp_add_tag E fields (MAILCHIMP_HIGH_ORDER_TAG main) w4 with
                | (Ok m, w5) =>
                    (Ok (base ++ [("coupon_email", Adapter s); ("mailchimp", Adapter m);
                                  ("finished_at", Timestamp (utcnow_isoformat E (clock w5)))])%list,
                     tick w5)
                | (Raise e, w5) => (Raise e, w5)
                end
       else
         exists message s w4,
           send_email_smtp E to_email "Your Shopify order - thank you" message w3 = (Ok s, w4)
           /\ process_order E main order w
              = (Ok (base ++ [("thankyou_email", Adapter s);
                              ("finished_at", Timestamp (utcnow_isoformat E (clock w4)))])%list,
                 tick w4).
Proof.
  intros H.
  destruct (http_adapter_returns _ _ _ _ (create_harvest_invoice_spec E fields) (tick w))
    as (h & w1 & Hh).
  destruct (http_adapter_returns _ _ _ _ (create_trello_card_spec E fields) w1)
    as (t & w2 & Ht).
  destruct (http_adapter_returns _ _ _ _ (upsert_zoho_contact_spec E fields) w2)
    as (z & w3 & Hz).
  exists h, w1, t, w2, z, w3. repeat (split; [assumption | ]).
  cbv zeta. unfold process_order, bind, utcnow, lift. rewrite H.
  change {| outbound := outbound w; clock := S (clock w) |} with (tick w).
  rewrite Hh, Ht, Hz, SFltb_or_zero.
  destruct (SFltb (COUPON_THRESHOLD main) (order_value fields)).
  - match goal with
    | |- context [send_email_smtp E ?t ?s ?m w3] =>
        destruct (smtp_returns E t s m w3) as (r & w4 & Hs); exists m, r, w4
    end.
    split; [exact Hs | ]. rewrite Hs.
    destruct (mailchimp_add_tag E fields (MAILCHIMP_HIGH_ORDER_TAG main) w4) as [[m | e] w5];
      reflexivity.
  - match goal with
    | |- context [send_email_smtp E ?t ?s ?m w3] =>
        destruct (smtp_returns E t s m w3) as (r & w4 & Hs); exists m, r, w4
    end.
    split; [exact Hs | ]. rewrite Hs. reflexivity.
Qed.

(** ** Orchestration: the claims *)









(** C7. With no variable set, importing [main] gives the threshold 50.0, the
    order of the scenario has the value 75.0, which the threshold is
    strictly less than, and [process_order] returns the simulated results of
    the invoice, task-card and CRM adapters, of the coupon email and of the
    tagging adapter, without any outbound call. *)
Theorem ana_order_scenario (E : environment) (w : world) :
  import_main (unconfigured E) = Ok default_main
  /\ COUPON_THRESHOLD default_main = fifty
  /\ extract_fields order_ana = Ok fields_ana
  /\ order_value fields_ana = seventy_five
  /\ SFltb fifty seventy_five = true
  /\ process_order (unconfigured E) default_main order_ana w
     = (Ok [("started_at", Timestamp (utcnow_isoformat E (clock w)));
            ("fields", Fields fields_ana);
            ("harvest", Adapter (simulated "Harvest not configured. Invoice not created."));
            ("trello", Adapter (simulated "Trello not configured. Card not created."));
            ("zoho", Adapter (simulated "Zoho not configured. Contact not upserted."));
            ("coupon_email", Adapter (simulated "SMTP not configured. Email not sent."));
            ("mailchimp", Adapter (simulated "Mailchimp not configured. Tag not added."));
            ("finished_at", Timestamp (utcnow_isoformat E (S (clock w))))],
        {| outbound := outbound w; clock := S (S (clock w)) |}).
Proof. repeat split. Qed.

(** * Further properties of the code *)

(** ** Field extraction *)

(** X1. [extract_fields] reads eight top-level keys of the order and nothing
    else: two orders that bind these keys alike are extracted alike,
    whatever else they hold and in whatever order. *)
Theorem extract_fields_reads_only (o1 o2 : pydict) :
  (forall k, In k order_keys -> lookup k o1 = lookup k o2) ->
  extract_fields o1 = extract_fields o2.
Proof.
  intros Hk. unfold extract_fields, dict_get.
  rewrite (Hk "customer"), (Hk "shipping_address"), (Hk "current_total_price"),
    (Hk "order_number"), (Hk "id"), (Hk "order_status_url"), (Hk "currency"),
    (Hk "processed_at") by (cbn; tauto).
  reflexivity.
Qed.

Lemma extract_fields_reads_only_witness :
  extract_fields order_ana = extract_fields order_shuffled.
Proof.
  apply (extract_fields_reads_only order_ana order_shuffled).
  intros k Hin. cbn in Hin.
  repeat (destruct Hin as [<- | Hin]; [reflexivity | ]). contradiction.
Defined.

Lemma py_or_text_or_empty (v : pyval) : text_or_empty (py_or v (PStr "")).
Proof.
  unfold text_or_empty, py_or. destruct (truthy v) eqn:Hv; [now right | now left].
Qed.

(** X2. In every record [extract_fields] returns, the seven string fields
    (first name, last name, email, country, street, city, province) are the
    empty string or a truthy value of the order: none of them is null,
    whatever the order holds. *)
Theorem string_fields_never_null (order : pydict) (f : NormalizedFields) :
  extract_fields order = Ok f ->
  Forall (fun v => text_or_empty v /\ v <> PNone)
    [customer_firstname f; customer_lastname f; customer_email f;
     customer_country f; customer_street f; customer_city f; customer_province f].
Proof.
  intros Hf.
  destruct (extract_fields_inv order f Hf) as (c & s & v & _ & _ & _ & _ & ->).
  assert (Hne : forall x, text_or_empty x -> x <> PNone).
  { intros x [-> | Hx]; [discriminate | ]. intros ->. discriminate Hx. }
  cbn [fields_of customer_firstname customer_lastname customer_email
       customer_country customer_street customer_city customer_province].
  repeat (apply Forall_cons;
          [split; [ | apply Hne]; apply py_or_text_or_empty | ]).
  apply Forall_nil.
Qed.

Lemma string_fields_never_null_witness :
  Forall (fun v => text_or_empty v /\ v <> PNone)
    [customer_firstname (fields_of order_nulls [] [] (S754_finite false (20 * 2 ^ 48) (-48)));
     customer_lastname (fields_of order_nulls [] [] (S754_finite false (20 * 2 ^ 48) (-48)));
     customer_email (fields_of order_nulls [] [] (S754_finite false (20 * 2 ^ 48) (-48)));
     customer_country (fields_of order_nulls [] [] (S754_finite false (20 * 2 ^ 48) (-48)));
     customer_street (fields_of order_nulls [] [] (S754_finite false (20 * 2 ^ 48) (-48)));
     customer_city (fields_of order_nulls [] [] (S754_finite false (20 * 2 ^ 48) (-48)));
     customer_province (fields_of order_nulls [] [] (S754_finite false (20 * 2 ^ 48) (-48)))].
Proof.
  apply (string_fields_never_null order_nulls). vm_compute. reflexivity.
Defined.

Lemma py_float_exception (v : pyval) (e : exn) :
  py_float v = Raise e ->
  exc_type e = ValueError \/ exc_type e = TypeError \/ exc_type e = OverflowError.
Proof.
  destruct v as [ | b | z | f | s | l | d]; cbn [py_float]; try discriminate;
    try (intros [= <-]; cbn; tauto).
  - destruct (float_of_Z z); try discriminate. intros [= <-]; cbn; tauto.
  - destruct (float_of_string s); try discriminate. intros [= <-]; cbn; tauto.
Qed.

(** X3. Which exception [extract_fields] raises. A nested value of the wrong
    shape gives [AttributeError] and is found first, also when the price
    is unusable too; with well-shaped nesting the exception is the one
    [float] raises on the price: [ValueError], [TypeError] or
    [OverflowError]. *)
Theorem extract_fields_exception (order : pydict) (e : exn) :
  extract_fields order = Raise e ->
  (well_nested order = false /\ exc_type e = AttributeError)
  \/ (well_nested order = true /\ py_float (price_of order) = Raise e
      /\ (exc_type e = ValueError \/ exc_type e = TypeError
          \/ exc_type e = OverflowError)).
Proof.
  intros He. destruct (well_nested order) eqn:Hw.
  - right. split; [reflexivity | ].
    unfold well_nested in Hw.
    destruct (customer_of order) as [ | | | | | | c] eqn:Hc; try discriminate Hw.
    destruct (shipping_of order) as [ | | | | | | s] eqn:Hs; try discriminate Hw.
    rewrite (extract_fields_objects order c s Hc Hs Hw) in He.
    destruct (py_float (price_of order)) as [v | e'] eqn:Hp; cbn [rbind] in He;
      [discriminate He | ].
    injection He as ->. split; [reflexivity | ]. exact (py_float_exception _ _ Hp).
  - left. split; [reflexivity | ].
    destruct (extract_fields_raises order Hw) as (e' & He' & Ht). congruence.
Qed.

Lemma extract_fields_exception_witness :
  (well_nested order_doubly_bad = false
   /\ exc_type (Exc AttributeError "'str' object has no attribute 'get'") = AttributeError)
  \/ (well_nested order_doubly_bad = true
      /\ py_float (price_of order_doubly_bad)
         = Raise (Exc AttributeError "'str' object has no attribute 'get'")
      /\ (exc_type (Exc AttributeError "'str' object has no attribute 'get'") = ValueError
          \/ exc_type (Exc AttributeError "'str' object has no attribute 'get'") = TypeError
          \/ exc_type (Exc AttributeError "'str' object has no attribute 'get'")
             = OverflowError)).
Proof. apply (extract_fields_exception order_doubly_bad). reflexivity. Defined.

(** ** Importing the modules *)


(** ** The adapters *)



(** X6. A server or a port set to the empty string is kept by [getenv] (its
    default applies to an unset variable only), so the email adapter is
    simulated although [config.py] has a default for both. *)
Theorem smtp_empty_setting_is_simulated
  (E : environment) (to_email : pyval) (subject message : string) (w : world) :
  environ E "GMAIL_SMTP_SERVER" = Some "" \/ environ E "GMAIL_SMTP_PORT" = Some "" ->
  send_email_smtp E to_email subject message w
  = (Ok (simulated "SMTP not configured. Email not sent."), w).
Proof.
  intros Hempty.
  destruct (send_email_smtp_spec E to_email subject message w)
    as [[_ H] | [[C _] | [C _]]]; [exact H | | ];
    unfold smtp_configured, GMAIL_SMTP_SERVER, GMAIL_SMTP_PORT, getenv in C;
    destruct Hempty as [He | He]; rewrite He in C; cbn in C;
    rewrite ?Bool.andb_false_r in C; discriminate C.
Qed.

Lemma smtp_empty_setting_is_simulated_witness :
  send_email_smtp
    (with_environ live (fun k => if (k =? "GMAIL_SMTP_PORT")%string then Some ""
                                 else Some "secret"))
    (PStr "a@x.com") "subject" "text" fresh_world
  = (Ok (simulated "SMTP not configured. Email not sent."), fresh_world).
Proof.
  apply smtp_empty_setting_is_simulated. right. reflexivity.
Defined.



Lemma py_or_unknown (v : pyval) : truthy (py_or v (PStr "Unknown")) = true.
Proof. unfold py_or. now destruct (truthy v) eqn:Hv. Qed.

(** X8. The contact the CRM adapter sends never holds a null: each of its
    eight values is the empty string or a truthy value, the phone and the
    zip code included, which are null in the fields when the order has
    none; and the last name is never empty ("Unknown" stands in). *)
Theorem zoho_contact_has_no_null (E : environment) (fields : NormalizedFields)
  (w : world) :
  zoho_configured E = true ->
  exists req contact,
    snd (upsert_zoho_contact E fields w) = logged (HttpPost req) w
    /\ json req = Some (PDict [("data", PList [PDict contact]);
                               ("duplicate_check_fields", PList [PStr "Email"])])
    /\ map fst contact
       = ["Last_Name"; "First_Name"; "Email"; "Phone"; "Mailing_City";
          "Mailing_Street"; "Mailing_Zip"; "Mailing_Country"]
    /\ Forall (fun kv => text_or_empty (snd kv) /\ snd kv <> PNone) contact
    /\ exists v, lookup "Last_Name" contact = Some v /\ truthy v = true.
Proof.
  unfold zoho_configured. intros C. unfold upsert_zoho_contact. rewrite C.
  cbn [negb]. rewrite try_post. cbn [snd].
  eexists _, _. split; [reflexivity | ]. split; [reflexivity | ].
  split; [reflexivity | ].
  assert (Hne : forall x, text_or_empty x -> x <> PNone).
  { intros x [-> | Hx]; [discriminate | ]. intros ->. discriminate Hx. }
  split.
  - apply Forall_cons.
    { cbn [snd]. assert (Ht := py_or_unknown (customer_lastname fields)).
      split; [now right | ]. intros Hn. rewrite Hn in Ht. discriminate Ht. }
    repeat (apply Forall_cons;
            [cbn [snd]; split; [ | apply Hne]; apply py_or_text_or_empty | ]).
    apply Forall_nil.
  - eexists. split; [reflexivity | apply py_or_unknown].
Qed.

Lemma zoho_contact_has_no_null_witness :
  exists req contact,
    snd (upsert_zoho_contact live no_fields fresh_world)
    = logged (HttpPost req) fresh_world
    /\ json req = Some (PDict [("data", PList [PDict contact]);
                               ("duplicate_check_fields", PList [PStr "Email"])])
    /\ map fst contact
       = ["Last_Name"; "First_Name"; "Email"; "Phone"; "Mailing_City";
          "Mailing_Street"; "Mailing_Zip"; "Mailing_Country"]
    /\ Forall (fun kv => text_or_empty (snd kv) /\ snd kv <> PNone) contact
    /\ exists v, lookup "Last_Name" contact = Some v /\ truthy v = true.
Proof. apply (zoho_contact_has_no_null live no_fields fresh_world). reflexivity. Defined.

Lemma lower_empty (s : string) : (lower s =? "")%string = (s =? "")%string.
Proof. destruct s; reflexivity. Qed.

(** X9. The tagging adapter reads nothing of the fields but the customer email,
    and that only through its lower-cased form: for two records whose emails
    differ in case at most it does the same, call and result. *)
Theorem mailchimp_reads_lowercase_email
  (E : environment) (f1 f2 : NormalizedFields) (s1 s2 : string) (tag : pyval)
  (w : world) :
  customer_email f1 = PStr s1 -> customer_email f2 = PStr s2 ->
  lower s1 = lower s2 ->
  mailchimp_add_tag E f1 tag w = mailchimp_add_tag E f2 tag w.
Proof.
  intros H1 H2 Hl. unfold mailchimp_add_tag. rewrite H1, H2.
  destruct (negb _); [reflexivity | ].
  cbn [truthy]. rewrite <- (lower_empty s1), <- (lower_empty s2), Hl.
  destruct (negb (negb _)); [reflexivity | ].
  unfold bind at 1 3, lift at 1 4. cbn [py_lower]. rewrite Hl. reflexivity.
Qed.

Lemma mailchimp_reads_lowercase_email_witness :
  mailchimp_add_tag live fields_ana (PStr "high-order") fresh_world
  = mailchimp_add_tag live
      {| customer_phone := PStr "555"; customer_zipcode := PNone;
         order_value := fifty;
         customer_firstname := PStr "Bo"; customer_lastname := PStr "Li";
         customer_email := PStr "A@X.COM"; customer_country := PStr "";
         customer_street := PStr ""; customer_city := PStr "";
         customer_province := PStr "";
         order_number := PInt 7; order_status_url := PNone;
         currency := PNone; processed_at := PNone |}
      (PStr "high-order") fresh_world.
Proof.
  apply (mailchimp_reads_lowercase_email live _ _ "a@x.com" "A@X.COM");
    reflexivity.
Defined.

(** *** What an adapter adds to the world *)

Lemma effect_none (P : call -> Prop) (w : world) : effect P 0 w w.
Proof. split; [reflexivity | ]. exists []. repeat split. apply Forall_nil. Qed.

Lemma effect_one (P : call -> Prop) (c : call) (w : world) :
  P c -> effect P 1 w (logged c w).
Proof.
  intros Hc. split; [reflexivity | ]. exists [c]. repeat split.
  apply Forall_cons; [exact Hc | apply Forall_nil].
Qed.

Lemma effect_weaken (P Q : call -> Prop) n w w' :
  (forall c, P c -> Q c) -> effect P n w w' -> effect Q n w w'.
Proof.
  intros HPQ (Hc & new & Ho & Hl & Hf). split; [exact Hc | ].
  exists new. repeat split; try assumption. revert Hf. apply Forall_impl. exact HPQ.
Qed.

Lemma effect_trans (P : call -> Prop) n m w1 w2 w3 :
  effect P n w1 w2 -> effect P m w2 w3 -> effect P (n + m) w1 w3.
Proof.
  intros (Hc1 & new1 & Ho1 & Hl1 & Hf1) (Hc2 & new2 & Ho2 & Hl2 & Hf2).
  split; [congruence | ]. exists (new2 ++ new1)%list. split; [ | split].
  - rewrite Ho2, Ho1. apply app_assoc.
  - rewrite length_app. lia.
  - apply Forall_app. now split.
Qed.

Lemma effect_tick (P : call -> Prop) n w w' :
  effect P n (tick w) w' ->
  clock w' = S (clock w)
  /\ exists new, outbound w' = (new ++ outbound w)%list
                 /\ List.length new = n /\ Forall P new.
Proof. intros (Hc & new & Ho & Hl & Hf). split; [exact Hc | now exists new]. Qed.

Lemma harvest_effect E fields w r w' :
  create_harvest_invoice E fields w = (r, w') ->
  effect (posts_to "https://api.harvestapp.com/v2/invoices" 20)
    (Nat.b2n (harvest_configured E)) w w'.
Proof.
  unfold create_harvest_invoice, harvest_configured.
  destruct (truthy (HARVEST_TOKEN E)), (truthy (HARVEST_ACCOUNT_ID E));
    cbn [negb orb andb Nat.b2n];
    try (intros [= _ <-]; apply effect_none).
  rewrite try_post. intros [= _ <-]. apply effect_one.
  eexists. repeat split.
Qed.

Lemma trello_effect E fields w r w' :
  create_trello_card E fields w = (r, w') ->
  effect (posts_to "https://api.trello.com/1/cards" 10)
    (Nat.b2n (trello_configured E)) w w'.
Proof.
  unfold create_trello_card, trello_configured.
  destruct (truthy (TRELLO_KEY E)), (truthy (TRELLO_TOKEN E)),
    (truthy (TRELLO_LIST_ID E));
    cbn [negb orb andb Nat.b2n];
    try (intros [= _ <-]; apply effect_none).
  rewrite try_post. intros [= _ <-]. apply effect_one.
  eexists. repeat split.
Qed.

Lemma zoho_effect E fields w r w' :
  upsert_zoho_contact E fields w = (r, w') ->
  effect (posts_to "https://www.zohoapis.com/crm/v2/Contacts/upsert" 15)
    (Nat.b2n (zoho_configured E)) w w'.
Proof.
  unfold upsert_zoho_contact, zoho_configured.
  destruct (truthy (ZOHO_ACCESS_TOKEN E)); cbn [negb Nat.b2n];
    try (intros [= _ <-]; apply effect_none).
  rewrite try_post. intros [= _ <-]. apply effect_one.
  eexists. repeat split.
Qed.

Lemma mailchimp_effect E fields tag w r w' :
  mailchimp_add_tag E fields tag w = (r, w') ->
  effect (posts_tag E fields)
    (Nat.b2n (mailchimp_configured E && truthy (customer_email fields)
              && is_str (customer_email fields))) w w'.
Proof.
  unfold mailchimp_add_tag, mailchimp_configured.
  destruct (truthy (MAILCHIMP_API_KEY E)), (truthy (MAILCHIMP_LIST_ID E)),
    (truthy (MAILCHIMP_SERVER_PREFIX E));
    cbn [negb orb andb Nat.b2n];
    try (intros [= _ <-]; apply effect_none).
  destruct (truthy (customer_email fields)) eqn:Ht; cbn [negb andb Nat.b2n];
    [ | intros [= _ <-]; apply effect_none].
  destruct (customer_email fields) as [ | b | z | f | s | l | d] eqn:He;
    cbn [is_str Nat.b2n];
    try (intros [= _ <-]; apply effect_none).
  unfold bind at 1, lift at 1. cbn [py_lower]. rewrite try_post.
  intros [= _ <-]. apply effect_one.
  exists s. split; [exact He | ]. eexists. repeat split.
Qed.

Lemma email_effect E to_email subject message w r w' :
  send_email_smtp E to_email subject message w = (r, w') ->
  effect is_smtp (smtp_sessions E) w w'.
Proof.
  unfold smtp_sessions.
  destruct (send_email_smtp_spec E to_email subject message w)
    as [[C H] | [(C & e & He & H) | (C & p & s & Hp & H)]];
    rewrite H, C; [ | rewrite He | rewrite Hp]; intros [= _ <-]; cbn [andb is_ok];
    try apply effect_none.
  apply effect_one. now exists s.
Qed.


(** ** Orchestration, continued *)

Lemma process_order_extraction_fails E main order e w :
  extract_fields order = Raise e ->
  process_order E main order w = (Raise e, tick w).
Proof.
  intros H. unfold process_order, bind, utcnow, lift. rewrite H. reflexivity.
Qed.

Lemma mailchimp_is_ok E fields tag w :
  is_ok (fst (mailchimp_add_tag E fields tag w))
  = negb (mailchimp_configured E && truthy (customer_email fields)
          && negb (is_str (customer_email fields))).
Proof.
  destruct (mailchimp_add_tag_spec E fields tag w)
    as [[C H] | [(C & T & H) | [(C & T & S & [req H]) | (C & T & S & e & _ & H)]]];
    rewrite H, C, ?T, ?S; reflexivity.
Qed.

(** What a run on an order whose fields are extracted does to the world,
    and when it returns. *)
Lemma process_order_outcome E main order f w :
  extract_fields order = Ok f ->
  (exists new,
     outbound (snd (process_order E main order w)) = (new ++ outbound w)%list
     /\ List.length new = calls_of E main f)
  /\ is_ok (fst (process_order E main order w))
     = negb (tagging_reached E main f && negb (is_str (customer_email f)))
  /\ clock (snd (process_order E main order w))
     = (clock w + (if is_ok (fst (process_order E main order w)) then 2 else 1))%nat
  /\ (forall res, fst (process_order E main order w) = Ok res ->
        lookup "started_at" res = Some (Timestamp (utcnow_isoformat E (clock w)))
        /\ lookup "fields" res = Some (Fields f)
        /\ lookup "finished_at" res
           = Some (Timestamp (utcnow_isoformat E (S (clock w))))).
Proof.
  intros H.
  destruct (process_order_run E main order f w H)
    as (h & w1 & t & w2 & z & w3 & Hh & Ht & Hz & Hrun).
  cbv zeta in Hrun.
  pose proof (effect_weaken _ any_call _ _ _ (fun _ _ => I) (harvest_effect _ _ _ _ _ Hh))
    as Eh.
  pose proof (effect_weaken _ any_call _ _ _ (fun _ _ => I) (trello_effect _ _ _ _ _ Ht))
    as Et.
  pose proof (effect_weaken _ any_call _ _ _ (fun _ _ => I) (zoho_effect _ _ _ _ _ Hz))
    as Ez.
  pose proof (effect_trans _ _ _ _ _ _ (effect_trans _ _ _ _ _ _ Eh Et) Ez) as E3.
  unfold calls_of, tagging_reached, high_value.
  destruct (SFltb (COUPON_THRESHOLD main) (order_value f)).
  - destruct Hrun as (message & s & w4 & Hs & Hp).
    pose proof (effect_weaken _ any_call _ _ _ (fun _ _ => I)
                  (email_effect _ _ _ _ _ _ _ Hs)) as Es.
    pose proof (mailchimp_is_ok E f (MAILCHIMP_HIGH_ORDER_TAG main) w4) as Hok.
    destruct (mailchimp_add_tag E f (MAILCHIMP_HIGH_ORDER_TAG main) w4)
      as [[m | e] w5] eqn:Hm;
      pose proof (effect_weaken _ any_call _ _ _ (fun _ _ => I)
                    (mailchimp_effect _ _ _ _ _ _ Hm)) as Em;
      destruct (effect_tick _ _ _ _ (effect_trans _ _ _ _ _ _
                                       (effect_trans _ _ _ _ _ _ E3 Es) Em))
        as (Hc & new & Ho & Hl & _);
      rewrite Hp; cbn [fst snd is_ok tick outbound clock andb] in *;
      (split; [exists new; split; [exact Ho | exact Hl] | ]);
      (split; [exact Hok | ]).
    + split; [lia | ]. intros res [= <-]. rewrite Hc. repeat split.
    + split; [lia | ]. discriminate.
  - destruct Hrun as (message & s & w4 & Hs & Hp).
    pose proof (effect_weaken _ any_call _ _ _ (fun _ _ => I)
                  (email_effect _ _ _ _ _ _ _ Hs)) as Es.
    destruct (effect_tick _ _ _ _ (effect_trans _ _ _ _ _ _ E3 Es))
      as (Hc & new & Ho & Hl & _).
    rewrite Hp; cbn [fst snd is_ok tick outbound clock andb negb Nat.b2n] in *.
    split; [exists new; split; [exact Ho | lia] | ].
    split; [reflexivity | ]. split; [lia | ].
    intros res [= <-]. rewrite Hc. repeat split.
Qed.




(** X13. The clock is read by [process_order] alone, never by an adapter: twice
    by a run that returns, once by a run that raises. So [started_at] and
    [finished_at] of a result are two consecutive readings, and its
    [fields] entry is the record [extract_fields] returned. *)
Theorem process_order_reads_clock_twice
  (E : environment) (main : main_module) (order : pydict) (w : world) :
  clock (snd (process_order E main order w))
  = (clock w + (if is_ok (fst (process_order E main order w)) then 2 else 1))%nat
  /\ (forall res, fst (process_order E main order w) = Ok res ->
        lookup "started_at" res = Some (Timestamp (utcnow_isoformat E (clock w)))
        /\ lookup "finished_at" res
           = Some (Timestamp (utcnow_isoformat E (S (clock w))))
        /\ exists f, extract_fields order = Ok f
                     /\ lookup "fields" res = Some (Fields f)).
Proof.
  destruct (extract_fields order) as [f | e] eqn:H.
  - destruct (process_order_outcome E main order f w H) as (_ & _ & Hc & Hres).
    split; [exact Hc | ]. intros res Hr. destruct (Hres res Hr) as (Hs & Hf & Hfin).
    repeat split; try assumption. now exists f.
  - rewrite (process_order_extraction_fails E main order e w H). cbn.
    split; [lia | discriminate].
Qed.

Lemma process_order_reads_clock_twice_witness :
  lookup "started_at"
    [("started_at", Timestamp "0"); ("fields", Fields fields_ana);
     ("harvest", Adapter (success (PDict []))); ("trello", Adapter (success (PDict [])));
     ("zoho", Adapter (success (PDict []))); ("coupon_email", Adapter sent);
     ("mailchimp", Adapter (success (PDict []))); ("finished_at", Timestamp "1")]
  = Some (Timestamp (utcnow_isoformat live (clock fresh_world)))
  /\ lookup "finished_at"
       [("started_at", Timestamp "0"); ("fields", Fields fields_ana);
        ("harvest", Adapter (success (PDict []))); ("trello", Adapter (success (PDict [])));
        ("zoho", Adapter (success (PDict []))); ("coupon_email", Adapter sent);
        ("mailchimp", Adapter (success (PDict []))); ("finished_at", Timestamp "1")]
     = Some (Timestamp (utcnow_isoformat live (S (clock fresh_world))))
  /\ exists f, extract_fields order_ana = Ok f
               /\ lookup "fields"
                    [("started_at", Timestamp "0"); ("fields", Fields fields_ana);
                     ("harvest", Adapter (success (PDict [])));
                     ("trello", Adapter (success (PDict [])));
                     ("zoho", Adapter (success (PDict []))); ("coupon_email", Adapter sent);
                     ("mailchimp", Adapter (success (PDict [])));
                     ("finished_at", Timestamp "1")]
                  = Some (Fields f).
Proof.
  apply (proj2 (process_order_reads_clock_twice live default_main order_ana fresh_world)).
  vm_compute. reflexivity.
Defined.

(** X14. A deployment with nothing configured is offline: whatever the order,
    [process_order] makes no outbound call, and it returns a result exactly
    when [extract_fields] does. *)
Theorem unconfigured_run_is_offline
  (E : environment) (main : main_module) (order : pydict) (w : world) :
  harvest_configured E = false -> trello_configured E = false ->
  zoho_configured E = false -> mailchimp_configured E = false ->
  smtp_configured E = false ->
  outbound (snd (process_order E main order w)) = outbound w
  /\ is_ok (fst (process_order E main order w)) = is_ok (extract_fields order).
Proof.
  intros Ch Ct Cz Cm Cs.
  destruct (extract_fields order) as [f | e] eqn:H.
  - destruct (process_order_outcome E main order f w H) as ((new & Ho & Hl) & Hok & _).
    unfold calls_of, tagging_reached, smtp_sessions in Hl.
    rewrite Ch, Ct, Cz, Cm, Cs, Bool.andb_false_r in Hl. cbn in Hl.
    destruct new; [ | discriminate Hl].
    split; [exact Ho | ]. rewrite Hok. unfold tagging_reached.
    now rewrite Cm, Bool.andb_false_r.
  - now rewrite (process_order_extraction_fails E main order e w H).
Qed.

Lemma unconfigured_run_is_offline_witness :
  outbound (snd (process_order quiet default_main order_numeric_email fresh_world))
  = outbound fresh_world
  /\ is_ok (fst (process_order quiet default_main order_numeric_email fresh_world))
     = is_ok (extract_fields order_numeric_email).
Proof.
  apply (unconfigured_run_is_offline quiet default_main order_numeric_email fresh_world);
    reflexivity.
Defined.



(** ** Configuration *)

Lemma getenv_str_or_default E k default :
  (exists v, environ E k = Some v /\ getenv E k default = PStr v)
  \/ (environ E k = None /\ getenv E k default = default).
Proof.
  unfold getenv. destruct (environ E k) as [v | ]; [left; now exists v | now right].
Qed.

(** X16. [as_dict] lists thirteen settings under distinct names and leaves the
    SMTP password out, as well as the coupon settings; every value is null
    or a string, and a listed variable that is set shows its value as it
    is, tokens and API keys included. *)
Theorem as_dict_omits_password (H : host) (E : environment) :
  lookup "GMAIL_SMTP_PASS" (as_dict H E) = None
  /\ lookup "COUPON_THRESHOLD" (as_dict H E) = None
  /\ lookup "COUPON_CODE" (as_dict H E) = None
  /\ NoDup (map fst (as_dict H E))
  /\ List.length (as_dict H E) = 13%nat
  /\ Forall (fun kv => snd kv = PNone \/ is_str (snd kv) = true) (as_dict H E)
  /\ (forall k v, In k (map fst (as_dict H E)) -> environ E k = Some v ->
                  lookup k (as_dict H E) = Some (PStr v)).
Proof.
  split; [reflexivity | ]. split; [reflexivity | ]. split; [reflexivity | ].
  split.
  { cbn. repeat (apply NoDup_cons; [cbn; intuition discriminate | ]). apply NoDup_nil. }
  split; [reflexivity | ].
  split.
  { unfold as_dict, HARVEST_TOKEN, HARVEST_ACCOUNT_ID, TRELLO_KEY, TRELLO_TOKEN,
      TRELLO_LIST_ID, ZOHO_ACCESS_TOKEN, MAILCHIMP_API_KEY, MAILCHIMP_LIST_ID,
      MAILCHIMP_SERVER_PREFIX, GMAIL_SMTP_SERVER, GMAIL_SMTP_PORT, GMAIL_SMTP_USER,
      OUTPUT_DIR.
    repeat (apply Forall_cons;
            [cbn [snd];
             match goal with
             | |- context [getenv E ?k ?d] =>
                 destruct (getenv_str_or_default E k d) as [(v & _ & ->) | [_ ->]];
                 [now right | first [now left | now right]]
             end | ]).
    apply Forall_nil. }
  intros k v Hin Hk. cbn in Hin.
  repeat (destruct Hin as [<- | Hin];
          [cbn; unfold HARVEST_TOKEN, HARVEST_ACCOUNT_ID, TRELLO_KEY, TRELLO_TOKEN,
             TRELLO_LIST_ID, ZOHO_ACCESS_TOKEN, MAILCHIMP_API_KEY, MAILCHIMP_LIST_ID,
             MAILCHIMP_SERVER_PREFIX, GMAIL_SMTP_SERVER, GMAIL_SMTP_PORT,
             GMAIL_SMTP_USER, OUTPUT_DIR, getenv; now rewrite Hk | ]).
  contradiction.
Qed.

Lemma as_dict_omits_password_witness :
  lookup "HARVEST_TOKEN" (as_dict laptop live) = Some (PStr "secret").
Proof.
  apply (proj2 (proj2 (proj2 (proj2 (proj2 (proj2 (as_dict_omits_password laptop live)))))));
    [cbn; tauto | reflexivity].
Defined.

Lemma adapters_read_config_keys (E : environment) (env : string -> option string) :
  (forall k, In k config_keys -> env k = environ E k) ->
  create_harvest_invoice (with_environ E env) = create_harvest_invoice E
  /\ create_trello_card (with_environ E env) = create_trello_card E
  /\ upsert_zoho_contact (with_environ E env) = upsert_zoho_contact E
  /\ mailchimp_add_tag (with_environ E env) = mailchimp_add_tag E
  /\ send_email_smtp (with_environ E env) = send_email_smtp E.
Proof.
  intros Hk.
  repeat split.
  - unfold create_harvest_invoice, HARVEST_TOKEN, HARVEST_ACCOUNT_ID, getenv.
    cbn [environ with_environ].
    rewrite (Hk "HARVEST_TOKEN"), (Hk "HARVEST_ACCOUNT_ID") by (cbn; tauto).
    reflexivity.
  - unfold create_trello_card, TRELLO_KEY, TRELLO_TOKEN, TRELLO_LIST_ID, getenv.
    cbn [environ with_environ].
    rewrite (Hk "TRELLO_KEY"), (Hk "TRELLO_TOKEN"), (Hk "TRELLO_LIST_ID")
      by (cbn; tauto).
    reflexivity.
  - unfold upsert_zoho_contact, ZOHO_ACCESS_TOKEN, getenv.
    cbn [environ with_environ].
    rewrite (Hk "ZOHO_ACCESS_TOKEN") by (cbn; tauto).
    reflexivity.
  - unfold mailchimp_add_tag, MAILCHIMP_API_KEY, MAILCHIMP_LIST_ID,
      MAILCHIMP_SERVER_PREFIX, getenv.
    cbn [environ with_environ].
    rewrite (Hk "MAILCHIMP_API_KEY"), (Hk "MAILCHIMP_LIST_ID"),
      (Hk "MAILCHIMP_SERVER_PREFIX") by (cbn; tauto).
    reflexivity.
  - unfold send_email_smtp, GMAIL_SMTP_SERVER, GMAIL_SMTP_PORT, GMAIL_SMTP_USER,
      GMAIL_SMTP_PASS, getenv.
    cbn [environ with_environ].
    rewrite (Hk "GMAIL_SMTP_SERVER"), (Hk "GMAIL_SMTP_PORT"), (Hk "GMAIL_SMTP_USER"),
      (Hk "GMAIL_SMTP_PASS") by (cbn; tauto).
    reflexivity.
Qed.

Lemma process_order_reads_config_keys E env main :
  (forall k, In k config_keys -> env k = environ E k) ->
  process_order (with_environ E env) main = process_order E main.
Proof.
  intros Hk.
  destruct (adapters_read_config_keys E env Hk) as (Hh & Ht & Hz & Hm & Hs).
  unfold process_order. rewrite Hh, Ht, Hz, Hm, Hs. reflexivity.
Qed.

(** X17. Once the modules are imported, the process environment matters through
    the thirteen variables of the adapters only: with any other variable
    changed ([OUTPUT_DIR], say, which nothing reads, or the coupon
    variables, which are read at import), [process_order], [cli_main] and
    the webhook do the same; in particular [--save-output] writes under
    [ROOT/outputs] whatever [OUTPUT_DIR] is. *)
Theorem only_adapter_variables_matter
  (H : host) (E : environment) (env : string -> option string) (main : main_module) :
  (forall k, In k config_keys -> env k = environ E k) ->
  process_order (with_environ E env) main = process_order E main
  /\ cli_main H (with_environ E env) main = cli_main H E main
  /\ webhook_order_created H (with_environ E env) main
     = webhook_order_created H E main.
Proof.
  intros Hk. pose proof (process_order_reads_config_keys E env main Hk) as Hp.
  split; [exact Hp | ].
  assert (Hon : process_order_on (with_environ E env) main = process_order_on E main).
  { unfold process_order_on. rewrite Hp. reflexivity. }
  split.
  - unfold cli_main, from_order_json, loads_and_run, run_order. rewrite Hon. reflexivity.
  - unfold webhook_order_created. rewrite Hon. reflexivity.
Qed.

Lemma only_adapter_variables_matter_witness :
  cli_main laptop
    (with_environ live (fun k => if (k =? "OUTPUT_DIR")%string then Some "/tmp/out"
                                 else environ live k))
    default_main
  = cli_main laptop live default_main.
Proof.
  apply (only_adapter_variables_matter laptop live
           (fun k => if (k =? "OUTPUT_DIR")%string then Some "/tmp/out"
                     else environ live k) default_main).
  intros k Hin. cbn in Hin.
  repeat (destruct Hin as [<- | Hin]; [reflexivity | ]). contradiction.
Defined.

(** ** Entry points *)

Lemma process_order_on_contacts E main order w :
  (exists d f, order = PDict d /\ extract_fields d = Ok f)
  \/ (outbound (snd (process_order_on E main order w)) = outbound w
      /\ is_ok (fst (process_order_on E main order w)) = false).
Proof.
  destruct order as [ | b | z | f | s | l | d];
    try (right; split; reflexivity).
  cbn [process_order_on].
  destruct (extract_fields d) as [f | e] eqn:Hf; [left; now exists d, f | ].
  right. rewrite (process_order_extraction_fails E main d e w Hf). split; reflexivity.
Qed.





(** X20. What a run that ends normally leaves behind. The result is printed
    once; without [--save-output] nothing else happens. With it, the
    directory [ROOT/outputs] is made, the clock is read once more, and the
    text that was printed is written to the one file
    [ROOT/outputs/<time>_order_<label>.json], whose path is printed last. *)
Theorem cli_prints_then_saves
  (H : host) (E : environment) (main : main_module) (args : namespace)
  (order : pyval) (t t' : terminal) :
  run_order H E main args order t = (Returned, t') ->
  exists result w,
    process_order_on E main order (net t) = (Ok result, w)
    /\ stderr t' = stderr t
    /\ if save_output args then
         exists label,
           order_label order = Ok label
           /\ let out_dir := path_join (ROOT H) "outputs" in
              let out_path :=
                path_join out_dir
                  (utcnow_strftime H (clock w) ++ "_order_"
                   ++ py_str (float_repr E) label ++ ".json") in
              net t' = tick w
              /\ stdout t' = ("Saved result to " ++ out_path)
                             :: json_dumps H result :: stdout t
              /\ files t' = WriteText out_path (json_dumps H result)
                            :: Mkdir out_dir :: files t
       else net t' = w /\ stdout t' = json_dumps H result :: stdout t
            /\ files t' = files t.
Proof.
  unfold run_order.
  destruct (process_order_on E main order (net t)) as [[result | e] w];
    [ | discriminate].
  intros Hrun. exists result, w. split; [reflexivity | ].
  destruct (save_output args).
  - destruct (mkdir H _); [discriminate Hrun | ].
    destruct (order_label order) as [label | e]; [ | discriminate Hrun].
    destruct (write_text H _ _); [discriminate Hrun | ].
    injection Hrun as <-. split; [reflexivity | ].
    exists label. repeat split.
  - injection Hrun as <-. repeat split.
Qed.

Lemma cli_prints_then_saves_witness :
  exists result w,
    process_order_on quiet default_main (PDict order_ana) (net fresh_terminal)
    = (Ok result, w)
    /\ stderr (snd (run_order laptop quiet default_main (args_json "ana" true)
                      (PDict order_ana) fresh_terminal))
       = stderr fresh_terminal
    /\ exists label,
         order_label (PDict order_ana) = Ok label
         /\ net (snd (run_order laptop quiet default_main (args_json "ana" true)
                        (PDict order_ana) fresh_terminal)) = tick w
         /\ stdout (snd (run_order laptop quiet default_main (args_json "ana" true)
                           (PDict order_ana) fresh_terminal))
            = ("Saved result to "
               ++ path_join (path_join (ROOT laptop) "outputs")
                    (utcnow_strftime laptop (clock w) ++ "_order_"
                     ++ py_str (float_repr quiet) label ++ ".json"))
              :: json_dumps laptop result :: stdout fresh_terminal
         /\ files (snd (run_order laptop quiet default_main (args_json "ana" true)
                          (PDict order_ana) fresh_terminal))
            = WriteText
                (path_join (path_join (ROOT laptop) "outputs")
                   (utcnow_strftime laptop (clock w) ++ "_order_"
                    ++ py_str (float_repr quiet) label ++ ".json"))
                (json_dumps laptop result)
              :: Mkdir (path_join (ROOT laptop) "outputs") :: files fresh_terminal.
Proof.
  apply (cli_prints_then_saves laptop quiet default_main (args_json "ana" true)
           (PDict order_ana) fresh_terminal).
  vm_compute. reflexivity.
Defined.

(** X21. A file is written by no run but one that was asked to save and whose
    processing returned; when processing raises, nothing is printed on the
    standard output either. *)
Theorem cli_writes_only_after_success
  (H : host) (E : environment) (main : main_module) (args : namespace)
  (order : pyval) (t : terminal) :
  (is_ok (fst (process_order_on E main order (net t))) && save_output args = false ->
   files (snd (run_order H E main args order t)) = files t)
  /\ (is_ok (fst (process_order_on E main order (net t))) = false ->
      stdout (snd (run_order H E main args order t)) = stdout t
      /\ exists e, fst (run_order H E main args order t) = Uncaught e).
Proof.
  unfold run_order.
  destruct (process_order_on E main order (net t)) as [[result | e] w];
    cbn [fst is_ok andb].
  - split; [ | discriminate]. intros ->. reflexivity.
  - split; [reflexivity | ]. intros _. split; [reflexivity | now exists e].
Qed.

Lemma cli_writes_only_after_success_witness :
  stdout (snd (run_order laptop live default_main (args_json "[]" true)
                 (PList []) fresh_terminal))
  = stdout fresh_terminal
  /\ exists e, fst (run_order laptop live default_main (args_json "[]" true)
                      (PList []) fresh_terminal) = Uncaught e.
Proof.
  apply (proj2 (cli_writes_only_after_success laptop live default_main
                  (args_json "[]" true) (PList []) fresh_terminal)).
  reflexivity.
Defined.

(** X22. The label in the name of the saved file against the extracted order
    number. A truthy [order_number] is both. Where the order has no
    [order_number] key the label is [id], as in the fields, or "unknown"
    where there is no [id] either (the field is null then). But an
    [order_number] that is present and falsy (null, 0, empty) is the label
    as it is, where the fields fall back to [id]. *)
Theorem saved_label_and_order_number (d : pydict) (f : NormalizedFields) :
  extract_fields d = Ok f ->
  (truthy (dict_get d "order_number" PNone) = true ->
   order_label (PDict d) = Ok (order_number f))
  /\ (forall v, lookup "order_number" d = None -> lookup "id" d = Some v ->
                order_label (PDict d) = Ok v /\ order_number f = v)
  /\ (lookup "order_number" d = None -> lookup "id" d = None ->
      order_label (PDict d) = Ok (PStr "unknown") /\ order_number f = PNone)
  /\ (forall v, lookup "order_number" d = Some v -> truthy v = false ->
                order_label (PDict d) = Ok v
                /\ order_number f = dict_get d "id" PNone).
Proof.
  intros Hf.
  destruct (extract_fields_inv d f Hf) as (c & s & x & _ & _ & _ & _ & ->).
  cbn [fields_of order_number]. unfold order_label, py_get_default, rbind, dict_get, py_or.
  split; [ | split; [ | split]].
  - destruct (lookup "order_number" d) as [v | ]; [ | discriminate].
    now intros ->.
  - intros v -> ->. split; reflexivity.
  - intros -> ->. split; reflexivity.
  - intros v -> ->. split; reflexivity.
Qed.

Lemma saved_label_and_order_number_witness :
  order_label (PDict [("order_number", PNone); ("id", PInt 7)]) = Ok PNone
  /\ order_number (fields_of [("order_number", PNone); ("id", PInt 7)] [] []
                     (S754_zero false))
     = dict_get [("order_number", PNone); ("id", PInt 7)] "id" PNone.
Proof.
  apply (proj2 (proj2 (proj2 (saved_label_and_order_number
                                [("order_number", PNone); ("id", PInt 7)] _ eq_refl)))
           PNone); reflexivity.
Defined.

(** X23. The webhook answers 400 with [{"error": "invalid json"}] exactly when
    the body is not JSON, and then does nothing else; it answers 200 with
    the result exactly when the body decodes and processing returns; it
    answers with no other status, an exception of [process_order] being
    left to Flask. It contacts an integration only for a body that is an
    object whose fields are extracted. *)
Theorem webhook_replies
  (H : host) (E : environment) (main : main_module) (body : string) (w : world) :
  (forall b, fst (webhook_order_created H E main body w) = Reply 400 b
             <-> (exists d, json_loads H body = inl d)
                 /\ b = ErrorBody [("error", PStr "invalid json")])
  /\ ((exists d, json_loads H body = inl d) ->
      snd (webhook_order_created H E main body w) = w)
  /\ (forall s b, fst (webhook_order_created H E main body w) = Reply s b ->
        s = 400
        \/ (s = 200
            /\ exists order res,
                 json_loads H body = inr order
                 /\ fst (process_order_on E main order w) = Ok res
                 /\ b = ResultBody res))
  /\ (forall order res, json_loads H body = inr order ->
        fst (process_order_on E main order w) = Ok res ->
        fst (webhook_order_created H E main body w) = Reply 200 (ResultBody res))
  /\ ((exists d f, json_loads H body = inr (PDict d) /\ extract_fields d = Ok f)
      \/ outbound (snd (webhook_order_created H E main body w)) = outbound w).
Proof.
  unfold webhook_order_created.
  destruct (json_loads H body) as [d | order] eqn:Hj.
  - split; [ | split; [ | split; [ | split]]].
    + intros b. cbn [fst]. split.
      * intros [= <-]. split; [now exists d | reflexivity].
      * now intros [_ ->].
    + reflexivity.
    + intros s b [= <- <-]. now left.
    + discriminate.
    + now right.
  - pose proof (process_order_on_contacts E main order w) as Hc.
    destruct (process_order_on E main order w) as [[res | e] w'] eqn:Hp;
      cbn [fst snd] in *.
    + split; [ | split; [ | split; [ | split]]].
      * intros b. split; [discriminate | ]. intros [[d' Hd] _]. discriminate Hd.
      * intros [d' Hd]. discriminate Hd.
      * intros s b [= <- <-]. right. split; [reflexivity | ].
        exists order, res. rewrite Hp. repeat split.
      * intros order' res' [= <-] Hr. rewrite Hp in Hr. now injection Hr as <-.
      * destruct Hc as [(d & f & -> & Hf) | [_ Hk]]; [left; now exists d, f | ].
        discriminate Hk.
    + split; [ | split; [ | split; [ | split]]].
      * intros b. split; [discriminate | ]. intros [[d' Hd] _]. discriminate Hd.
      * intros [d' Hd]. discriminate Hd.
      * discriminate.
      * intros order' res' [= <-] Hr. rewrite Hp in Hr. discriminate Hr.
      * destruct Hc as [(d & f & -> & Hf) | [Ho _]]; [left; now exists d, f | now right].
Qed.

Lemma webhook_replies_witness :
  snd (webhook_order_created laptop live default_main "not json" fresh_world)
  = fresh_world
  /\ fst (webhook_order_created laptop quiet default_main "{}" fresh_world)
     = Reply 200
         (ResultBody
            [("started_at", Timestamp "0"); ("fields", Fields no_fields);
             ("harvest", Adapter (simulated "Harvest not configured. Invoice not created."));
             ("trello", Adapter (simulated "Trello not configured. Card not created."));
             ("zoho", Adapter (simulated "Zoho not configured. Contact not upserted."));
             ("thankyou_email", Adapter (simulated "SMTP not configured. Email not sent."));
             ("finished_at", Timestamp "1")]).
Proof.
  split.
  - apply (proj1 (proj2 (webhook_replies laptop live default_main "not json" fresh_world))).
    eexists. reflexivity.
  - apply (proj1 (proj2 (proj2 (proj2 (webhook_replies laptop quiet default_main "{}"
                                         fresh_world)))) (PDict []));
      reflexivity.
Defined.
